(** * auto-archiver: the Google Drive storage backend and the archiver
    result contract, embedded from [src/storages/gd_storage.py],
    [src/archivers/tiktok_archiver.py] and
    [src/archivers/youtubedl_archiver.py]. *)

From Stdlib Require Import ZArith Lia Ascii String.
From stdpp Require Import gmap strings list pretty.

Local Open Scope string_scope.
Local Open Scope list_scope.
Local Open Scope Z_scope.

(** ** Python values shared by the three source files *)

(** The exception classes the code names or can meet.  [KeyboardInterrupt]
    stands for the [BaseException] subclasses that [except Exception] lets
    through; [RemoteError] is any transport, authentication or
    remote-service failure of a client library. *)
Inductive exn : Type :=
  | ValueError (msg : string)
  | KeyError (k : string)
  | IndexError
  | AttributeError (attr : string)
  | FileNotFoundError
  | InvalidUrl
  | DownloadError
  | RemoteError (msg : string)
  | KeyboardInterrupt.

(** [isinstance(e, Exception)] *)
Definition is_Exception (e : exn) : bool :=
  match e with
  | KeyboardInterrupt => false
  | _ => true
  end.

Inductive outcome (A : Type) : Type :=
  | Ok (a : A)
  | Raise (e : exn).
Arguments Ok {A} a.
Arguments Raise {A} e.

Definition is_ok {A} (r : outcome A) : bool :=
  match r with Ok _ => true | Raise _ => false end.

(** State and exception monad: a call runs on a state, returns or raises,
    and leaves a state. *)
Definition M (S A : Type) : Type := S -> outcome A * S.

Definition ret {S A} (a : A) : M S A := fun s => (Ok a, s).
Definition raise {S A} (e : exn) : M S A := fun s => (Raise e, s).
Definition bind {S A B} (m : M S A) (k : A -> M S B) : M S B :=
  fun s => match m s with
           | (Ok a, s') => k a s'
           | (Raise e, s') => (Raise e, s')
           end.
(** [try: m  except <classes accepted by handles>: h] *)
Definition try_except {S A} (m : M S A) (handles : exn -> bool)
    (h : exn -> M S A) : M S A :=
  fun s => match m s with
           | (Ok a, s') => (Ok a, s')
           | (Raise e, s') => if handles e then h e s' else (Raise e, s')
           end.

Declare Scope py_scope.
Delimit Scope py_scope with py.
Notation "x <- c ;; k" := (bind c (fun x => k))
  (at level 100, c at next level, right associativity) : py_scope.
Notation "c ;;; k" := (bind c (fun _ => k))
  (at level 100, right associativity) : py_scope.
Local Open Scope py_scope.

(** ** Strings, as Python has them *)

(** [str(x)] of a value that may be [None] *)
Definition str_opt (x : option string) : string :=
  match x with Some s => s | None => "None" end.

(** [str(b)] *)
Definition str_bool (b : bool) : string := if b then "True" else "False".

(** [repr(s)] of a string without quotes or escapes in it. *)
Definition repr_str (s : string) : string := "'" +:+ s +:+ "'".
Definition repr_opt (x : option string) : string :=
  match x with Some s => repr_str s | None => "None" end.

(** [s.startswith(p)] *)
Fixpoint startswith (p s : string) : bool :=
  match p, s with
  | EmptyString, _ => true
  | String a p', String b s' => if Ascii.eqb a b then startswith p' s' else false
  | String _ _, EmptyString => false
  end.

(** [s.endswith(c)] for a one-character suffix *)
Fixpoint endswith_char (c : ascii) (s : string) : bool :=
  match s with
  | EmptyString => false
  | String a EmptyString => Ascii.eqb a c
  | String _ s' => endswith_char c s'
  end.

(** [p in s] *)
Fixpoint contains (p s : string) : bool :=
  startswith p s ||
  match s with
  | EmptyString => false
  | String _ s' => contains p s'
  end.

(** [s.split(sep)] for a one-character separator; the list is never empty. *)
Fixpoint str_split (sep : ascii) (s : string) : list string :=
  match s with
  | EmptyString => [EmptyString]
  | String c s' =>
      if Ascii.eqb c sep then EmptyString :: str_split sep s'
      else match str_split sep s' with
           | [] => [String c EmptyString]
           | h :: t => String c h :: t
           end
  end.

Definition sep : ascii := "/"%char.

(** [os.path.join(a, b)] of posixpath *)
Definition path_join (a b : string) : string :=
  if startswith "/" b then b
  else if (String.eqb a "" || endswith_char sep a)%bool then a +:+ b
  else a +:+ "/" +:+ b.

(** [l[-1]] and [l[0:-1]] on a list known to be non-empty *)
Definition py_last (l : list string) : string := List.last l "".
Definition py_init (l : list string) : list string := removelast l.

(** [range(n)] *)
Definition range (n : Z) : list Z := Z.of_nat <$> seq 0 (Z.to_nat n).

(** ** src/storages/gd_storage.py *)

Module GD.

(** One entry of [results.get('files', [])], with the requested fields
    [files(id, name)]. *)
Record item := Item { item_id : string; item_name : string }.

(** The [file_metadata] dictionaries of [uploadf] and [_mkdir]. *)
Record metadata := Metadata {
  md_name : list string;
  md_mimeType : option string;
  md_parents : list (option string)
}.

Definition folder_mime : string := "application/vnd.google-apps.folder".

(** The calls the storage makes on the outside world, with what they
    returned: the log is ghost state that counts them. *)
Inductive event : Type :=
  | EList (q : string) (r : outcome (list item))
  | ECreate (body : metadata) (media : option string) (r : outcome (option string))
  | ESleep (secs : Z) (r : outcome unit)
  | EMedia (file : string) (r : outcome unit).

Definition is_list (e : event) : bool :=
  match e with EList _ _ => true | _ => false end.
Definition is_create (e : event) : bool :=
  match e with ECreate _ _ _ => true | _ => false end.
Definition is_sleep (e : event) : bool :=
  match e with ESleep _ _ => true | _ => false end.

(** The Drive v3 client [self.service], [MediaFileUpload] and
    [time.sleep], over an abstract state [R] of what is outside the
    object: [files().list(q=..., spaces='drive',
    fields='files(id, name)').execute().get('files', [])],
    [files().create(body=..., media_body=..., fields='id').execute().get('id')],
    [time.sleep(secs)] and [MediaFileUpload(file, resumable=True)], which
    opens the local file.  Any of them may raise. *)
Class Drive (R : Type) := {
  files_list : string -> R -> outcome (list item) * R;
  files_create : metadata -> option string -> R -> outcome (option string) * R;
  time_sleep : Z -> R -> outcome unit * R;
  media_file_upload : string -> R -> outcome unit * R
}.

(** The attributes of a [GDStorage] object.  [api_cache] is [None] until
    [getattr(self, "api_cache", {})] first sets it. *)
Record GDStorage (R : Type) := mkGD {
  folder : string;
  root_folder_id : string;
  api_cache : option (gmap string string);
  service : R;
  calls : list event
}.
Arguments mkGD {R}.
Arguments folder {R}.
Arguments root_folder_id {R}.
Arguments api_cache {R}.
Arguments service {R}.
Arguments calls {R}.

Section Storage.
Context {R : Type} `{Drive R}.

Local Abbreviation St := (GDStorage R).

Definition set_cache (c : gmap string string) (st : St) : St :=
  mkGD (folder st) (root_folder_id st) (Some c) (service st) (calls st).

Definition set_remote (r : R) (ev : event) (st : St) : St :=
  mkGD (folder st) (root_folder_id st) (api_cache st) r (calls st ++ [ev]).

(** [getattr(self, "api_cache", {})] *)
Definition cache_of (st : St) : gmap string string :=
  default ∅ (api_cache st).

Definition call_list (q : string) : M St (list item) := fun st =>
  let '(r, rem) := files_list q (service st) in
  (r, set_remote rem (EList q r) st).

Definition call_create (body : metadata) (media : option string)
    : M St (option string) := fun st =>
  let '(r, rem) := files_create body media (service st) in
  (r, set_remote rem (ECreate body media r) st).

Definition call_sleep (secs : Z) : M St unit := fun st =>
  let '(r, rem) := time_sleep secs (service st) in
  (r, set_remote rem (ESleep secs r) st).

Definition call_media (file : string) : M St unit := fun st =>
  let '(r, rem) := media_file_upload file (service st) in
  (r, set_remote rem (EMedia file r) st).

(** [f"{parent_id}_{name}_{use_mime_type}"] *)
Definition cache_key (parent_id : option string) (name : string)
    (use_mime_type : bool) : string :=
  str_opt parent_id +:+ "_" +:+ name +:+ "_" +:+ str_bool use_mime_type.

(** [f"[searching {name=} in {parent_id=}]"] *)
Definition debug_header (parent_id : option string) (name : string) : string :=
  "[searching name=" +:+ repr_str name +:+ " in parent_id="
    +:+ repr_opt parent_id +:+ "]".

Definition query_string (parent_id : option string) (name : string)
    (use_mime_type : bool) : string :=
  let q := "'" +:+ str_opt parent_id +:+ "' in parents and name = '"
             +:+ name +:+ "' " in
  if use_mime_type
  then q +:+ " and mimeType='application/vnd.google-apps.folder' "
  else q.

(** The body of [for attempt in range(retries)]: [Some _id] is the
    [return _id] inside the loop, [None] is the loop running out. *)
Fixpoint attempts (l : list Z) (q cache_key : string) (retries sleep_seconds : Z)
    (use_cache : bool) : M St (option string) :=
  match l with
  | [] => ret None
  | attempt :: l' =>
      items <- call_list q ;;
      if 0 <? Z.of_nat (length items) then
        match last items with
        | Some it =>
            let _id := item_id it in
            (if use_cache
             then fun st => (Ok tt, set_cache (<[cache_key := _id]> (cache_of st)) st)
             else ret tt) ;;;
            ret (Some _id)
        | None => raise IndexError
        end
      else
        (if attempt <? retries - 1 then call_sleep sleep_seconds else ret tt) ;;;
        attempts l' q cache_key retries sleep_seconds use_cache
  end.

Definition _get_id_from_parent_and_name (parent_id : option string)
    (name : string) (retries sleep_seconds : Z)
    (use_mime_type raise_on_missing use_cache : bool) : M St (option string) :=
  let cache_key := cache_key parent_id name use_mime_type in
  hit <- (if use_cache
          then fun st => (Ok (cache_of st !! cache_key), set_cache (cache_of st) st)
          else ret None) ;;
  match hit with
  | Some cached => ret (Some cached)
  | None =>
      let query_string := query_string parent_id name use_mime_type in
      found <- attempts (range retries) query_string cache_key retries
                 sleep_seconds use_cache ;;
      match found with
      | Some _id => ret (Some _id)
      | None =>
          if raise_on_missing
          then raise (ValueError (debug_header parent_id name +:+ " not found after "
                                    +:+ pretty retries +:+ " attempt(s)"))
          else ret None
      end
  end.

(** The defaults of the signature: [retries=1, sleep_seconds=10,
    use_mime_type=False, raise_on_missing=True, use_cache=True]. *)
Definition default_retries : Z := 1.
Definition default_sleep_seconds : Z := 10.

Definition _mkdir (name : string) (parent_id : option string)
    : M St (option string) :=
  call_create (Metadata [name] (Some folder_mime) [parent_id]) None.

(** [for folder in path_parts[0:-1]] of [get_cdn_url], on the pair
    [(parent_id, folder_id)]. *)
Fixpoint get_cdn_url_folders (folders : list string)
    (parent_id folder_id : option string) : M St (option string * option string) :=
  match folders with
  | [] => ret (parent_id, folder_id)
  | folder :: rest =>
      folder_id <- _get_id_from_parent_and_name parent_id folder default_retries
                     default_sleep_seconds true true true ;;
      get_cdn_url_folders rest folder_id folder_id
  end.

Definition view_url (file_id : option string) : string :=
  "https://drive.google.com/file/d/" +:+ str_opt file_id +:+ "/view?usp=sharing".

Definition get_cdn_url (key : string) : M St string := fun st =>
  let full_name := path_join (folder st) key in
  let path_parts := str_split sep full_name in
  let filename := py_last path_parts in
  (ids <- get_cdn_url_folders (py_init path_parts) (Some (root_folder_id st)) None ;;
   file_id <- _get_id_from_parent_and_name (snd ids) filename default_retries
                default_sleep_seconds false true true ;;
   ret (view_url file_id)) st.

(** [except:] with no class catches everything. *)
Definition exists_ (key : string) : M St bool :=
  try_except (get_cdn_url key ;;; ret true) (fun _ => true) (fun _ => ret false).

(** The body of [for folder in path_parts[0:-1]] of [uploadf]. *)
Definition uploadf_folder (parent_id : option string) (folder : string)
    : M St (option string) :=
  upload_to <- _get_id_from_parent_and_name parent_id folder default_retries
                 default_sleep_seconds true false true ;;
  match upload_to with
  | None => _mkdir folder parent_id
  | Some _ => ret upload_to
  end.

Fixpoint uploadf_folders (folders : list string)
    (parent_id upload_to : option string) : M St (option string * option string) :=
  match folders with
  | [] => ret (parent_id, upload_to)
  | folder :: rest =>
      upload_to <- uploadf_folder parent_id folder ;;
      uploadf_folders rest upload_to upload_to
  end.

Definition uploadf (file key : string) : M St unit := fun st =>
  let full_name := path_join (folder st) key in
  let path_parts := str_split sep full_name in
  let filename := py_last path_parts in
  (ids <- uploadf_folders (py_init path_parts) (Some (root_folder_id st)) None ;;
   let upload_to := snd ids in
   call_media file ;;;
   gd_file <- call_create (Metadata [filename] None [upload_to]) (Some file) ;;
   (* the log line reads gd_file["id"] *)
   match gd_file with
   | Some _ => ret tt
   | None => raise (KeyError "id")
   end) st.

Definition upload (filename key : string) : M St unit := uploadf filename key.

End Storage.
End GD.

(** ** A reference Drive: an in-memory remote used to run the storage

    Files are kept in creation order, ids are [id0], [id1], ...; a listing
    returns the files whose metadata answers the query, in creation order.
    While [d_online] is false every call on the remote raises a transport
    error.  Every local file can be opened. *)
Module MemDrive.
Import GD.

Record dfile := DFile { f_id : string; f_body : metadata }.

Record drive := mkDrive {
  d_files : list dfile;
  d_next : N;
  d_online : bool
}.

Definition is_folder (f : dfile) : bool :=
  bool_decide (md_mimeType (f_body f) = Some folder_mime).

Definition matches (q : string) (f : dfile) : bool :=
  existsb (fun p =>
    existsb (fun n =>
      String.eqb q (query_string p n false)
      || (is_folder f && String.eqb q (query_string p n true)))
      (md_name (f_body f)))
    (md_parents (f_body f)).

Definition to_item (f : dfile) : item :=
  Item (f_id f) (String.concat "" (md_name (f_body f))).

Definition offline : exn := RemoteError "connection refused".

Definition mem_list (q : string) (d : drive) : outcome (list item) * drive :=
  if d_online d then (Ok (to_item <$> filter (fun f => matches q f = true) (d_files d)), d)
  else (Raise offline, d).

Definition mem_create (body : metadata) (media : option string) (d : drive)
    : outcome (option string) * drive :=
  if d_online d then
    let id := "id" +:+ pretty (d_next d) in
    (Ok (Some id), mkDrive (d_files d ++ [DFile id body]) (N.succ (d_next d)) true)
  else (Raise offline, d).

Definition mem_sleep (secs : Z) (d : drive) : outcome unit * drive :=
  if secs <? 0 then (Raise (ValueError "sleep length must be non-negative"), d)
  else (Ok tt, d).

Definition mem_media (file : string) (d : drive) : outcome unit * drive := (Ok tt, d).

#[export] Instance mem_drive : Drive drive := {
  files_list := mem_list;
  files_create := mem_create;
  time_sleep := mem_sleep;
  media_file_upload := mem_media
}.

Definition empty_drive : drive := mkDrive [] 0 true.


Definition unplugged : drive := mkDrive [] 0 false.

Definition two_folders : drive :=
  mkDrive [DFile "id0" (Metadata ["a"] (Some folder_mime) [Some "root"]);
           DFile "id1" (Metadata ["a"] (Some folder_mime) [Some "root"])] 2 true.

Definition one_folder : drive :=
  mkDrive [DFile "id0" (Metadata ["a"] (Some folder_mime) [Some "root"])] 1 true.

(** A new [GDStorage(GDConfig(root_folder_id, folder))] on a drive. *)
Definition fresh (root folder : string) (d : drive) : GDStorage drive :=
  mkGD folder root None d [].

(** The storage after one upload of [a/f.mp4] to an empty drive. *)
Definition uploaded : GDStorage drive :=
  snd (GD.upload "tmp/f.mp4" "a/f.mp4" (fresh "root" "default" empty_drive)).

(** A drive with one folder [b] under the parent [r_a]. *)
Definition underscore_drive : drive :=
  mkDrive [DFile "id0" (Metadata ["b"] (Some folder_mime) [Some "r_a"])] 1 true.

End MemDrive.

(** ** A site: the reference drive behind listings that lag, and a local
    disk

    The first [s_lag] listings answer with no entry, as a remote does that
    does not show yet what was created a moment ago; [MediaFileUpload]
    opens the files of [s_local] and no other. *)
Module Site.
Import GD MemDrive.

Record site := mkSite {
  s_drive : drive;
  s_lag : nat;
  s_local : list string
}.

Definition on_drive {A} (f : drive -> outcome A * drive) (s : site)
    : outcome A * site :=
  let '(r, d) := f (s_drive s) in (r, mkSite d (s_lag s) (s_local s)).

Definition site_list (q : string) (s : site) : outcome (list item) * site :=
  match s_lag s with
  | S n => (Ok [], mkSite (s_drive s) n (s_local s))
  | O => on_drive (mem_list q) s
  end.

Definition site_media (file : string) (s : site) : outcome unit * site :=
  if existsb (String.eqb file) (s_local s) then (Ok tt, s)
  else (Raise FileNotFoundError, s).

#[export] Instance site_drive : Drive site := {
  files_list := site_list;
  files_create := fun body media => on_drive (mem_create body media);
  time_sleep := fun secs => on_drive (mem_sleep secs);
  media_file_upload := site_media
}.

(** A new [GDStorage] on a site whose local disk holds [tmp/f.mp4]. *)
Definition at_site (lag : nat) (d : drive) (root folder : string) : GDStorage site :=
  mkGD folder root None (mkSite d lag ["tmp/f.mp4"]) [].

End Site.

(** ** src/archivers: the archiver contract and its two implementations *)

Module Arch.

(** [ArchiveResult] of [base_archiver]: the keyword arguments the two
    archivers pass; a field not passed is [None]. *)
Inductive timestamp : Type :=
  | Isoformat (s : string)
  | Datetime (d : string).

Record ArchiveResult := mkResult {
  status : string;
  cdn_url : option string;
  thumbnail : option string;
  thumbnail_index : option string;
  duration : option Z;
  title : option string;
  timestamp_ : option timestamp;
  hash : option string;
  screenshot : option string
}.

(** [ArchiveResult(status=s)] *)
Definition status_only (s : string) : ArchiveResult :=
  mkResult s None None None None None None None None.

(** What [download] returns: [False] (not applicable) or a result. *)
Inductive download_result : Type :=
  | NotApplicable
  | Result (r : ArchiveResult).

(** The object [tiktok_downloader.info_post] returns: [id] is read
    directly, [duration], [create] (already in iso format) and [caption]
    may be missing attributes. *)
Record tiktok_info := TiktokInfo {
  ti_id : string;
  ti_duration : option Z;
  ti_create : option string;
  ti_caption : option string
}.

(** The dictionary [ydl.extract_info] returns, by the keys the archiver
    reads; a key that is absent or holds [None] is [None]. *)
#[warnings="-register-all"]
Inductive ytinfo : Type := YtInfo {
  yi_is_live : option bool;
  yi_webpage_url : option string;
  yi_entries : option (list ytinfo);
  yi_duration : option Z;
  yi_timestamp : option Z;
  yi_upload_date : option string;
  yi_title : option string
}.

(** The calls on the storage and on the scratch file, with what they
    returned, in the order they were made. *)
Inductive aevent : Type :=
  | EvExists (key : string) (r : outcome bool)
  | EvUpload (filename key : string) (r : outcome unit)
  | EvCdnUrl (key : string) (r : outcome string)
  | EvFetch (filename : string) (r : outcome unit)
  | EvExtract (url : string) (download : bool) (r : outcome ytinfo)
  | EvRemove (filename : string) (r : outcome unit).

Definition is_upload (e : aevent) : bool :=
  match e with EvUpload _ _ _ => true | _ => false end.

(** The collaborators of an archiver over an abstract world [W]: the
    [Archiver] base class, the [Storage] it holds, [os], the two
    downloader libraries and [datetime].  Any call may raise. *)
Class World (W : Type) := {
  TMP_FOLDER : string;
  get_key : string -> W -> outcome string * W;
  get_netloc : string -> W -> outcome string * W;
  get_thumbnails : string -> string -> option Z -> W -> outcome (string * string) * W;
  get_hash : string -> W -> outcome string * W;
  get_screenshot : string -> W -> outcome string * W;
  storage_exists : string -> W -> outcome bool * W;
  storage_upload : string -> string -> W -> outcome unit * W;
  storage_get_cdn_url : string -> W -> outcome string * W;
  os_remove : string -> W -> outcome unit * W;
  os_path_exists : string -> W -> outcome bool * W;
  info_post : string -> W -> outcome tiktok_info * W;
  snaptik_get_media : string -> W -> outcome (list string) * W;
  media_download : string -> string -> W -> outcome unit * W;
  set_cookie_header : string -> W -> outcome unit * W;
  extract_info : string -> bool -> W -> outcome ytinfo * W;
  prepare_filename : ytinfo -> W -> outcome string * W;
  utc_isoformat : Z -> W -> outcome string * W;
  strptime_utc : string -> W -> outcome string * W;
  format_exc : exn -> string
}.

Record AState (W : Type) := mkA { world : W; trace : list aevent }.
Arguments mkA {W}.
Arguments world {W}.
Arguments trace {W}.

Section Archivers.
Context {W : Type} `{World W}.

Local Abbreviation St := (AState W).

(** A collaborator call that leaves no entry in the trace. *)
Definition quiet {A} (f : W -> outcome A * W) : M St A := fun st =>
  let '(r, w) := f (world st) in (r, mkA w (trace st)).

(** A collaborator call with its entry in the trace. *)
Definition logged {A} (ev : outcome A -> aevent) (f : W -> outcome A * W)
    : M St A := fun st =>
  let '(r, w) := f (world st) in (r, mkA w (trace st ++ [ev r])).

Definition exists_ (key : string) : M St bool :=
  logged (EvExists key) (storage_exists key).
Definition upload (filename key : string) : M St unit :=
  logged (EvUpload filename key) (storage_upload filename key).
Definition get_cdn_url (key : string) : M St string :=
  logged (EvCdnUrl key) (storage_get_cdn_url key).
Definition remove (filename : string) : M St unit :=
  logged (EvRemove filename) (os_remove filename).

(** *** tiktok_archiver.py *)

(** [self.get_thumbnails(filename, key, duration=info.duration)] in its
    [try ... except Exception]. *)
Definition tiktok_thumbnails (info : tiktok_info) (filename key : string)
    : M St (string * string) :=
  try_except
    (match ti_duration info with
     | Some d => quiet (get_thumbnails filename key (Some d))
     | None => raise (AttributeError "duration")
     end)
    is_Exception
    (fun _ => ret ("", "error creating thumbnails")).

(** The body of the [try] of [TiktokArchiver.download]. *)
Definition tiktok_try (url : string) (check_if_exists : bool)
    : M St download_result :=
  info <- quiet (info_post url) ;;
  key <- quiet (get_key (ti_id info +:+ ".mp4")) ;;
  let filename := path_join TMP_FOLDER key in
  status <- (if check_if_exists
             then (found <- exists_ key ;;
                   ret (if found then "already archived" else "success"))
             else ret "success") ;;
  media <- quiet (snaptik_get_media url) ;;
  if Z.of_nat (length media) <=? 0 then
    if String.eqb status "already archived" then
      u <- get_cdn_url key ;;
      ret (Result (mkResult "Could not download media, but already archived"
                     (Some u) None None None None None None None))
    else ret (Result (status_only "Could not download media"))
  else
    match media with
    | [] => raise IndexError
    | m0 :: _ =>
        logged (EvFetch filename) (media_download m0 filename) ;;;
        (if negb (String.eqb status "already archived")
         then upload filename key else ret tt) ;;;
        thumbs <- tiktok_thumbnails info filename key ;;
        hash <- quiet (get_hash filename) ;;
        screenshot <- quiet (get_screenshot url) ;;
        try_except (remove filename)
          (fun e => match e with FileNotFoundError => true | _ => false end)
          (fun _ => ret tt) ;;;
        cdn_url <- get_cdn_url key ;;
        ret (Result (mkResult status (Some cdn_url) (Some (fst thumbs))
                       (Some (snd thumbs)) (Some (default 0 (ti_duration info)))
                       (Some (default "" (ti_caption info)))
                       (Isoformat <$> ti_create info) (Some hash) (Some screenshot)))
    end.

Definition tiktok_download (url : string) (check_if_exists : bool)
    : M St download_result :=
  if negb (contains "tiktok.com" url) then ret NotApplicable
  else
    try_except (tiktok_try url check_if_exists) (fun _ => true)
      (fun e =>
         match e with
         | InvalidUrl => ret (Result (status_only "Invalid URL"))
         | _ => ret (Result (status_only ("Other Tiktok error: " +:+ format_exc e)))
         end).

(** *** youtubedl_archiver.py *)

(** Truth value of [self.fb_cookie]. *)
Definition truthy (s : option string) : bool :=
  match s with
  | Some c => negb (String.eqb c "")
  | None => false
  end.

Definition extract (url : string) (download : bool) : M St ytinfo :=
  logged (EvExtract url download) (extract_info url download).

(** Lines 29 to 36: the first extraction; [None] is [return False]. *)
Definition youtubedl_probe (url : string) : M St (option ytinfo) :=
  try_except (info <- extract url false ;; ret (Some info))
    (fun e => match e with DownloadError => true | _ => is_Exception e end)
    (fun _ => ret None).

(** Lines 49 to 67, under [if check_if_exists]: [inl tt] is
    [return False], [inr (key, status, cdn_url)] goes on. *)
Definition youtubedl_check (info : ytinfo)
    : M St (unit + (string * string * option string)) :=
  let continue filename :=
    key <- quiet (get_key filename) ;;
    found <- exists_ key ;;
    if found then
      u <- get_cdn_url key ;;
      ret (inr (key, "already archived", Some u))
    else ret (inr (key, "success", None)) in
  match yi_entries info with
  | Some entries =>
      if 1 <? Z.of_nat (length entries) then ret (inl tt)
      else if Z.of_nat (length entries) =? 0 then ret (inl tt)
      else match entries with
           | e0 :: _ => filename <- quiet (prepare_filename e0) ;; continue filename
           | [] => raise IndexError
           end
  | None => filename <- quiet (prepare_filename info) ;; continue filename
  end.

(** Lines 109 to 113. *)
Definition youtubedl_timestamp (info : ytinfo) : M St (option timestamp) :=
  match yi_timestamp info with
  | Some ts => s <- quiet (utc_isoformat ts) ;; ret (Some (Isoformat s))
  | None =>
      match yi_upload_date info with
      | Some d => t <- quiet (strptime_utc d) ;; ret (Some (Datetime t))
      | None => ret None
      end
  end.

(** Lines 81 to 116, once [info] is a single video. *)
Definition youtubedl_finish (url : string) (info : ytinfo)
    (key0 : option string) (status : string) (cdn_url0 : option string)
    : M St download_result :=
  filename <- quiet (prepare_filename info) ;;
  there <- quiet (os_path_exists filename) ;;
  let filename :=
    if negb there then hd "" (str_split "."%char filename) +:+ ".mkv" else filename in
  kc <- (if negb (String.eqb status "already archived")
         then key <- quiet (get_key filename) ;;
              upload filename key ;;;
              u <- get_cdn_url key ;;
              ret (Some key, Some u)
         else ret (key0, cdn_url0)) ;;
  let key := fst kc in
  let cdn_url := snd kc in
  hash <- quiet (get_hash filename) ;;
  screenshot <- quiet (get_screenshot url) ;;
  let duration := yi_duration info in
  thumbs <- try_except
              (match key with
               | Some k => quiet (get_thumbnails filename k duration)
               | None => raise (AttributeError "key")
               end)
              (fun _ => true)
              (fun _ => ret ("", "Could not generate thumbnails")) ;;
  remove filename ;;;
  timestamp <- youtubedl_timestamp info ;;
  ret (Result (mkResult status cdn_url (Some (fst thumbs)) (Some (snd thumbs))
                 duration (yi_title info) timestamp (Some hash) (Some screenshot))).

(** Lines 38 to 79, after the first extraction returned [info]. *)
Definition youtubedl_archive (url netloc : string) (check_if_exists : bool)
    (info : ytinfo) : M St download_result :=
  if default false (yi_is_live info) then ret (Result (status_only "Streaming media"))
  else
    linked <- (if contains "twitter.com" netloc then
                 match yi_webpage_url info with
                 | Some u => ret (negb (contains "https://twitter.com/" u))
                 | None => raise (KeyError "webpage_url")
                 end
               else ret false) ;;
    if (linked : bool) then ret NotApplicable
    else
      checked <- (if check_if_exists then youtubedl_check info
                  else ret (inr ("", "success", None))) ;;
      match checked with
      | inl _ => ret NotApplicable
      | inr (key, status, cdn_url) =>
          let key0 := if check_if_exists then Some key else None in
          info <- extract url true ;;
          match yi_entries info with
          | Some entries =>
              if 1 <? Z.of_nat (length entries) then ret NotApplicable
              else match entries with
                   | e0 :: _ => youtubedl_finish url e0 key0 status cdn_url
                   | [] => raise IndexError
                   end
          | None => youtubedl_finish url info key0 status cdn_url
          end
      end.

Definition youtubedl_download (fb_cookie : option string) (url : string)
    (check_if_exists : bool) : M St download_result :=
  netloc <- quiet (get_netloc url) ;;
  (if (bool_decide (netloc = "facebook.com") || bool_decide (netloc = "www.facebook.com"))
      && truthy fb_cookie
   then quiet (set_cookie_header (default "" fb_cookie)) else ret tt) ;;;
  probe <- youtubedl_probe url ;;
  match probe with
  | None => ret NotApplicable
  | Some info => youtubedl_archive url netloc check_if_exists info
  end.

End Archivers.
End Arch.

(** ** A scripted world: every collaborator answers what the script says

    Used to run the archivers on concrete outcomes of their collaborators.
    [get_key] prefixes the archiver name, [prepare_filename] places the
    title in the scratch folder. *)
Module Script.
Import Arch.

Record script := mkScript {
  sc_netloc : outcome string;
  sc_info_post : outcome tiktok_info;
  sc_exists : outcome bool;
  sc_media : outcome (list string);
  sc_fetch : outcome unit;
  sc_upload : outcome unit;
  sc_thumbs : outcome (string * string);
  sc_hash : outcome string;
  sc_screenshot : outcome string;
  sc_remove : outcome unit;
  sc_cdn : outcome string;
  sc_probe : outcome ytinfo;
  sc_download : outcome ytinfo;
  sc_path_exists : bool
}.

Definition script_name (i : ytinfo) : string :=
  "tmp/" +:+ default "video" (yi_title i) +:+ ".mp4".
Definition script_key (n : string) : string := "arch_" +:+ n.

#[export] Instance scripted : World script := {
  TMP_FOLDER := "tmp/";
  get_key := fun name w => (Ok (script_key name), w);
  get_netloc := fun _ w => (sc_netloc w, w);
  get_thumbnails := fun _ _ _ w => (sc_thumbs w, w);
  get_hash := fun _ w => (sc_hash w, w);
  get_screenshot := fun _ w => (sc_screenshot w, w);
  storage_exists := fun _ w => (sc_exists w, w);
  storage_upload := fun _ _ w => (sc_upload w, w);
  storage_get_cdn_url := fun _ w => (sc_cdn w, w);
  os_remove := fun _ w => (sc_remove w, w);
  os_path_exists := fun _ w => (Ok (sc_path_exists w), w);
  info_post := fun _ w => (sc_info_post w, w);
  snaptik_get_media := fun _ w => (sc_media w, w);
  media_download := fun _ _ w => (sc_fetch w, w);
  set_cookie_header := fun _ w => (Ok tt, w);
  extract_info := fun _ download w => ((if download then sc_download w else sc_probe w), w);
  prepare_filename := fun info w => (Ok (script_name info), w);
  utc_isoformat := fun ts w => (Ok (pretty ts), w);
  strptime_utc := fun d w => (Ok d, w);
  format_exc := fun e =>
    match e with
    | ValueError m | RemoteError m => m
    | KeyError k => k
    | AttributeError a => a
    | IndexError => "IndexError"
    | FileNotFoundError => "FileNotFoundError"
    | InvalidUrl => "InvalidUrl"
    | DownloadError => "DownloadError"
    | KeyboardInterrupt => "KeyboardInterrupt"
    end
}.

Definition video : ytinfo :=
  YtInfo None (Some "https://example.org/v/1") None (Some 12) (Some 0) None (Some "clip").

Definition post : tiktok_info := TiktokInfo "7001" (Some 12) (Some "2022-01-01T00:00:00") (Some "clip").

(** Every collaborator answers; the key is already in the storage. *)
Definition all_fine : script :=
  mkScript (Ok "example.org") (Ok post) (Ok true) (Ok ["https://cdn/v.mp4"]) (Ok tt) (Ok tt)
    (Ok ("thumb.jpg", "index.html")) (Ok "abc123") (Ok "https://shots/1.png") (Ok tt)
    (Ok "https://cdn/arch_1") (Ok video) (Ok video) true.

Definition upload_fails (e : exn) (w : script) : script :=
  mkScript (sc_netloc w) (sc_info_post w) (Ok false) (sc_media w) (sc_fetch w) (Raise e)
    (sc_thumbs w) (sc_hash w) (sc_screenshot w) (sc_remove w) (sc_cdn w) (sc_probe w)
    (sc_download w) (sc_path_exists w).


Definition start (w : script) : AState script := mkA w [].

Definition tiktok_url : string := "https://www.tiktok.com/@u/video/7001".
Definition video_url : string := "https://example.org/v/1".

Definition thumbs_fail (e : exn) (w : script) : script :=
  mkScript (sc_netloc w) (sc_info_post w) (sc_exists w) (sc_media w) (sc_fetch w) (sc_upload w)
    (Raise e) (sc_hash w) (sc_screenshot w) (sc_remove w) (sc_cdn w)
    (sc_probe w) (sc_download w) (sc_path_exists w).

(** The download that follows the first extraction finds two videos. *)
Definition playlist : ytinfo :=
  YtInfo None None (Some [video; video]) None None None (Some "list").

Definition playlist_world : script :=
  mkScript (sc_netloc all_fine) (sc_info_post all_fine) (sc_exists all_fine)
    (sc_media all_fine) (sc_fetch all_fine) (sc_upload all_fine) (sc_thumbs all_fine)
    (sc_hash all_fine) (sc_screenshot all_fine) (sc_remove all_fine) (sc_cdn all_fine)
    (sc_probe all_fine) (Ok playlist) (sc_path_exists all_fine).

End Script.

(** ** A world with a scratch folder

    The collaborators answer what the script says, except those that
    touch the scratch folder: a download that returns writes its file
    there, [os.remove] deletes the file or raises [FileNotFoundError] when
    it is not there, [os.path.exists] looks. *)
Module Disk.
Import Arch Script.

Record disk := mkDisk {
  answers : script;
  scratch : list string
}.

Definition holds (f : string) (w : disk) : bool := existsb (String.eqb f) (scratch w).

Definition answer {A} (r : script -> outcome A) (w : disk) : outcome A * disk :=
  (r (answers w), w).

(** The files a download of [i] writes: one per video. *)
Definition written (i : ytinfo) : list string :=
  script_name <$> (match yi_entries i with Some es => es | None => [i] end).

Definition disk_remove (f : string) (w : disk) : outcome unit * disk :=
  if holds f w
  then (Ok tt, mkDisk (answers w) (List.filter (fun g => negb (String.eqb f g)) (scratch w)))
  else (Raise FileNotFoundError, w).

Definition disk_fetch (f : string) (w : disk) : outcome unit * disk :=
  match sc_fetch (answers w) with
  | Ok _ => (Ok tt, mkDisk (answers w) (f :: scratch w))
  | Raise e => (Raise e, w)
  end.

Definition disk_extract (download : bool) (w : disk) : outcome ytinfo * disk :=
  if download then
    match sc_download (answers w) with
    | Ok i => (Ok i, mkDisk (answers w) (written i ++ scratch w))
    | Raise e => (Raise e, w)
    end
  else (sc_probe (answers w), w).

#[export] Instance disk_world : World disk := {
  TMP_FOLDER := "tmp/";
  get_key := fun name w => (Ok (script_key name), w);
  get_netloc := fun _ => answer sc_netloc;
  get_thumbnails := fun _ _ _ => answer sc_thumbs;
  get_hash := fun _ => answer sc_hash;
  get_screenshot := fun _ => answer sc_screenshot;
  storage_exists := fun _ => answer sc_exists;
  storage_upload := fun _ _ => answer sc_upload;
  storage_get_cdn_url := fun _ => answer sc_cdn;
  os_remove := disk_remove;
  os_path_exists := fun f w => (Ok (holds f w), w);
  info_post := fun _ => answer sc_info_post;
  snaptik_get_media := fun _ => answer sc_media;
  media_download := fun _ => disk_fetch;
  set_cookie_header := fun _ w => (Ok tt, w);
  extract_info := fun _ => disk_extract;
  prepare_filename := fun info w => (Ok (script_name info), w);
  utc_isoformat := fun ts w => (Ok (pretty ts), w);
  strptime_utc := fun d w => (Ok d, w);
  format_exc := @format_exc script scripted
}.

(** An attempt that starts with an empty scratch folder. *)
Definition boot (a : script) : AState disk := mkA (mkDisk a []) [].

Definition hash_fails (e : exn) (w : script) : script :=
  mkScript (sc_netloc w) (sc_info_post w) (sc_exists w) (sc_media w) (sc_fetch w) (sc_upload w)
    (sc_thumbs w) (Raise e) (sc_screenshot w) (sc_remove w) (sc_cdn w)
    (sc_probe w) (sc_download w) (sc_path_exists w).

End Disk.

(** ** src/configs/config.py: the storages and the web driver of [Config],
    with [GDStorage.__init__] *)

Module Cfg.

(** [TimeoutException] of selenium and the [TypeError] of a [raise] whose
    operand is not an exception; [Other] is an exception of [exn]. *)
Inductive cexn : Type :=
  | TimeoutException
  | TypeError (msg : string)
  | Other (e : exn).

Inductive cout (A : Type) : Type :=
  | Done (a : A)
  | Fail (e : cexn).
Arguments Done {A} a.
Arguments Fail {A} e.

Definition CM (S A : Type) : Type := S -> cout A * S.
Definition cret {S A} (a : A) : CM S A := fun s => (Done a, s).
Definition cfail {S A} (e : cexn) : CM S A := fun s => (Fail e, s).
Definition cbind {S A B} (m : CM S A) (k : A -> CM S B) : CM S B :=
  fun s => match m s with
           | (Done a, s') => k a s'
           | (Fail e, s') => (Fail e, s')
           end.

Declare Scope cfg_scope.
Delimit Scope cfg_scope with cfg.
Notation "x <~ c ;; k" := (cbind c (fun x => k))
  (at level 100, c at next level, right associativity) : cfg_scope.
Notation "c ~;; k" := (cbind c (fun _ => k))
  (at level 100, right associativity) : cfg_scope.
Local Open Scope cfg_scope.

(** [GDConfig] of gd_storage.py, a dataclass. *)
Record GDConfig := mkGDConfig {
  gc_root_folder_id : string;
  gc_folder : string;
  gc_service_account : string
}.

(** [GDConfig(root_folder_id=..., service_account=...)]: the default of
    [folder] is "default". *)
Definition GDConfig_new (root_folder_id service_account : string) : GDConfig :=
  mkGDConfig root_folder_id "default" service_account.

(** The S3 and local configurations and storages are not in these files:
    an object of theirs is its [folder] attribute and the rest. *)
Record obj (X : Type) := Obj { o_folder : string; o_rest : X }.
Arguments Obj {X}.
Arguments o_folder {X}.
Arguments o_rest {X}.

(** The values [self.webdriver] takes: the string set by
    [read_config_yaml], [None], or a started driver. *)
Inductive webdriver_value (D : Type) : Type :=
  | WStr (s : string)
  | WNone
  | WDriver (d : D).
Arguments WStr {D} s.
Arguments WNone {D}.
Arguments WDriver {D} d.

Record SeleniumConfig := mkSelenium {
  timeout_seconds : Z;
  window_width : Z;
  window_height : Z
}.

(** The attributes of [Config] that the modelled methods read or write;
    [None] is an attribute that is not set. *)
Record Config (D R X : Type) := mkConfig {
  folder : string;
  storage : string;
  s3_config : option (obj X);
  s3_storage : option (obj X);
  gd_config : option GDConfig;
  gd_storage : option (GD.GDStorage R);
  local_config : option (obj X);
  local_storage : option (obj X);
  webdriver : option (webdriver_value D);
  selenium_config : SeleniumConfig
}.
Arguments mkConfig {D R X}.
Arguments folder {D R X}.
Arguments storage {D R X}.
Arguments s3_config {D R X}.
Arguments s3_storage {D R X}.
Arguments gd_config {D R X}.
Arguments gd_storage {D R X}.
Arguments local_config {D R X}.
Arguments local_storage {D R X}.
Arguments webdriver {D R X}.
Arguments selenium_config {D R X}.

(** The calls on the outside, with what they returned. *)
Inductive cevent (D : Type) : Type :=
  | EvFirefox (r : cout D)
  | EvClose (d : D) (r : cout unit)
  | EvQuit (d : D) (r : cout unit)
  | EvWindowSize (d : D) (width height : Z) (r : cout unit)
  | EvPageLoadTimeout (d : D) (seconds : Z) (r : cout unit)
  | EvCredentials (path : string)
  | EvBuild
  | EvNewS3
  | EvNewLocal.
Arguments EvFirefox {D} r.
Arguments EvClose {D} d r.
Arguments EvQuit {D} d r.
Arguments EvWindowSize {D} d width height r.
Arguments EvPageLoadTimeout {D} d seconds r.
Arguments EvCredentials {D} path.
Arguments EvBuild {D}.
Arguments EvNewS3 {D}.
Arguments EvNewLocal {D}.

(** Selenium, the Google client libraries and the two storage classes
    that are not in these files, over an outside world [W]: drivers [D],
    Drive services [R], credentials [C]. *)
Class Outside (W D R X C : Type) := {
  firefox : W -> cout D * W;
  drv_close : D -> W -> cout unit * W;
  drv_quit : D -> W -> cout unit * W;
  drv_set_window_size : D -> Z -> Z -> W -> cout unit * W;
  drv_set_page_load_timeout : D -> Z -> W -> cout unit * W;
  from_service_account_file : string -> W -> cout C * W;
  build_drive : C -> W -> cout R * W;
  S3Storage : obj X -> W -> cout (obj X) * W;
  LocalStorage : obj X -> W -> cout (obj X) * W
}.

Record CState (W D R X : Type) := mkC {
  config : Config D R X;
  outside : W;
  clog : list (cevent D)
}.
Arguments mkC {W D R X}.
Arguments config {W D R X}.
Arguments outside {W D R X}.
Arguments clog {W D R X}.

(** What [get_storage] returns. *)
Inductive any_storage (R X : Type) : Type :=
  | IsS3 (s : obj X)
  | IsGD (s : GD.GDStorage R)
  | IsLocal (s : obj X).
Arguments IsS3 {R X} s.
Arguments IsGD {R X} s.
Arguments IsLocal {R X} s.

Section Config.
Context {W D R X C : Type} `{Outside W D R X C}.

(** [getattr_or] of [utils], which is not in these files. *)
Variable getattr_or : forall A : Type, option A -> A -> A.

Local Abbreviation St := (CState W D R X).

Definition call {A} (ev : cout A -> cevent D) (f : W -> cout A * W) : CM St A :=
  fun st =>
    let '(r, w) := f (outside st) in (r, mkC (config st) w (clog st ++ [ev r])).

Definition update (f : Config D R X -> Config D R X) : CM St unit :=
  fun st => (Done tt, mkC (f (config st)) (outside st) (clog st)).

Definition with_folder (f : string) (o : obj X) : obj X := Obj f (o_rest o).

Definition gd_config_with_folder (f : string) (c : GDConfig) : GDConfig :=
  mkGDConfig (gc_root_folder_id c) f (gc_service_account c).

Definition gd_storage_with_folder (f : string) (s : GD.GDStorage R) : GD.GDStorage R :=
  GD.mkGD f (GD.root_folder_id s) (GD.api_cache s) (GD.service s) (GD.calls s).

(** [Config.set_folder]: every [hasattr] that holds gets the folder. *)
Definition set_folder (f : string) (c : Config D R X) : Config D R X :=
  mkConfig f (storage c)
    (with_folder f <$> s3_config c) (with_folder f <$> s3_storage c)
    (gd_config_with_folder f <$> gd_config c) (gd_storage_with_folder f <$> gd_storage c)
    (with_folder f <$> local_config c) (with_folder f <$> local_storage c)
    (webdriver c) (selenium_config c).

(** [GDStorage.__init__]: no [api_cache] attribute yet. *)
Definition GDStorage_init (c : GDConfig) : CM St (GD.GDStorage R) :=
  creds <~ call (fun _ => EvCredentials (gc_service_account c))
             (from_service_account_file (gc_service_account c)) ;;
  service <~ call (fun _ => EvBuild) (build_drive creds) ;;
  cret (GD.mkGD (gc_folder c) (gc_root_folder_id c) None service []).

(** [self.<name>] of an attribute that may be missing. *)
Definition attr {A} (name : string) (a : option A) : CM St A :=
  match a with
  | Some v => cret v
  | None => cfail (Other (AttributeError name))
  end.

Definition set_s3_storage (s : obj X) (c : Config D R X) : Config D R X :=
  mkConfig (folder c) (storage c) (s3_config c) (Some s) (gd_config c) (gd_storage c)
    (local_config c) (local_storage c) (webdriver c) (selenium_config c).
Definition set_gd_storage (s : GD.GDStorage R) (c : Config D R X) : Config D R X :=
  mkConfig (folder c) (storage c) (s3_config c) (s3_storage c) (gd_config c) (Some s)
    (local_config c) (local_storage c) (webdriver c) (selenium_config c).
Definition set_local_storage (s : obj X) (c : Config D R X) : Config D R X :=
  mkConfig (folder c) (storage c) (s3_config c) (s3_storage c) (gd_config c) (gd_storage c)
    (local_config c) (Some s) (webdriver c) (selenium_config c).
Definition set_webdriver (v : option (webdriver_value D)) (c : Config D R X)
    : Config D R X :=
  mkConfig (folder c) (storage c) (s3_config c) (s3_storage c) (gd_config c) (gd_storage c)
    (local_config c) (local_storage c) v (selenium_config c).

(** [Config.get_storage].  The default passed to [getattr_or] is an
    argument: the storage is constructed before [getattr_or] is called.
    The last line raises a string. *)
Definition get_storage : CM St (any_storage R X) := fun st =>
  (if String.eqb (storage (config st)) "s3" then
     c <~ attr "s3_config" (s3_config (config st)) ;;
     new <~ call (fun _ => EvNewS3) (S3Storage c) ;;
     s <~ (fun st' => cret (getattr_or _ (s3_storage (config st')) new) st') ;;
     update (set_s3_storage s) ~;;
     cret (IsS3 s)
   else if String.eqb (storage (config st)) "gd" then
     c <~ attr "gd_config" (gd_config (config st)) ;;
     new <~ GDStorage_init c ;;
     s <~ (fun st' => cret (getattr_or _ (gd_storage (config st')) new) st') ;;
     update (set_gd_storage s) ~;;
     cret (IsGD s)
   else if String.eqb (storage (config st)) "local" then
     c <~ attr "local_config" (local_config (config st)) ;;
     new <~ call (fun _ => EvNewLocal) (LocalStorage c) ;;
     s <~ (fun st' => cret (getattr_or _ (local_storage (config st')) new) st') ;;
     update (set_local_storage s) ~;;
     cret (IsLocal s)
   else cfail (TypeError "exceptions must derive from BaseException")) st.

(** [Config.destroy_webdriver] *)
Definition destroy_webdriver : CM St unit := fun st =>
  (v <~ attr "webdriver" (webdriver (config st)) ;;
   match v with
   | WDriver d =>
       call (EvClose d) (drv_close d) ~;;
       call (EvQuit d) (drv_quit d) ~;;
       update (set_webdriver None)
   | WNone | WStr _ => cret tt
   end) st.

(** [try ... except TimeoutException] *)
Definition try_timeout {A} (m : CM St A) (h : CM St A) : CM St A :=
  fun st => match m st with
            | (Fail TimeoutException, st') => h st'
            | other => other
            end.

(** [Config.recreate_webdriver] *)
Definition recreate_webdriver : CM St unit :=
  try_timeout
    (new_webdriver <~ call EvFirefox firefox ;;
     destroy_webdriver ~;;
     update (set_webdriver (Some (WDriver new_webdriver))) ~;;
     (fun st =>
        (call (EvWindowSize new_webdriver (window_width (selenium_config (config st)))
                 (window_height (selenium_config (config st))))
           (drv_set_window_size new_webdriver
              (window_width (selenium_config (config st)))
              (window_height (selenium_config (config st)))) ~;;
         call (EvPageLoadTimeout new_webdriver
                 (timeout_seconds (selenium_config (config st))))
           (drv_set_page_load_timeout new_webdriver
              (timeout_seconds (selenium_config (config st))))) st))
    (cret tt).

End Config.
End Cfg.

(** ** A scripted outside for [Config]: drivers are numbers, the Drive
    service is the reference drive *)
Module CfgToy.
Import Cfg.

Record cscript := mkCS {
  cs_firefox : cout nat;
  cs_close : cout unit;
  cs_quit : cout unit;
  cs_size : cout unit;
  cs_timeout : cout unit;
  cs_creds : cout string;
  cs_build : cout MemDrive.drive
}.

#[export] Instance toy_outside : Outside cscript nat MemDrive.drive unit string := {
  firefox := fun w => (cs_firefox w, w);
  drv_close := fun _ w => (cs_close w, w);
  drv_quit := fun _ w => (cs_quit w, w);
  drv_set_window_size := fun _ _ _ w => (cs_size w, w);
  drv_set_page_load_timeout := fun _ _ w => (cs_timeout w, w);
  from_service_account_file := fun _ w => (cs_creds w, w);
  build_drive := fun _ w => (cs_build w, w);
  S3Storage := fun c w => (Done c, w);
  LocalStorage := fun c w => (Done c, w)
}.

(** The attribute when it is set, the default otherwise. *)
Definition getattr_or (A : Type) (a : option A) (d : A) : A := default d a.

Definition healthy : cscript :=
  mkCS (Done 7%nat) (Done tt) (Done tt) (Done tt) (Done tt) (Done "token")
    (Done MemDrive.empty_drive).

Definition firefox_fails (e : cexn) : cscript :=
  mkCS (Fail e) (Done tt) (Done tt) (Done tt) (Done tt) (Done "token")
    (Done MemDrive.empty_drive).

Definition no_credentials : cscript :=
  mkCS (Done 7%nat) (Done tt) (Done tt) (Done tt) (Done tt)
    (Fail (Other FileNotFoundError)) (Done MemDrive.empty_drive).

(** A [Config] after [read_config_yaml] with the Drive storage selected. *)
Definition drive_config (name : string) (wd : option (webdriver_value nat))
    (sto : option (GD.GDStorage MemDrive.drive)) : Config nat MemDrive.drive unit :=
  mkConfig "" name None None (Some (GDConfig_new "root" "service_account.json")) sto
    None None wd (mkSelenium 120 1400 2000).

Definition cstart (c : Config nat MemDrive.drive unit) (w : cscript)
    : CState cscript nat MemDrive.drive unit :=
  mkC c w [].

End CfgToy.

(** ** Vocabulary of the statements about the storage backend *)

Section StorageSpec.
Import GD.
Context {R : Type} `{Drive R}.

Local Abbreviation St := (GDStorage R).

(** What the log gains when [k] attempts in a row all list nothing: a
    listing per attempt, a sleep between two attempts, none after the last. *)
Fixpoint miss_log (q : string) (secs : Z) (k : nat) : list event :=
  match k with
  | O => []
  | S k' =>
      EList q (Ok []) ::
      match k' with
      | O => []
      | S _ => ESleep secs (Ok tt) :: miss_log q secs k'
      end
  end.

(** What the log gains when [k] attempts list nothing and are each
    followed by a sleep, as they are when a later attempt is still due. *)
Fixpoint retry_log (q : string) (secs : Z) (k : nat) : list event :=
  match k with
  | O => []
  | S k' => EList q (Ok []) :: ESleep secs (Ok tt) :: retry_log q secs k'
  end.

(** A set of remote states on which the query [q] lists nothing, and which
    listing and sleeping do not leave. *)
Record always_missing (Inv : R -> Prop) (q : string) (secs : Z) : Prop := {
  am_list : forall r, Inv r -> exists r', files_list q r = (Ok [], r') /\ Inv r';
  am_sleep : forall r, Inv r -> exists r', time_sleep secs r = (Ok tt, r') /\ Inv r'
}.




(** The path [parts] cannot be resolved from [parent] down: going through
    the segments with the cache as it is and the remote as it answers, a
    segment is met that the cache does not hold and that the remote lists
    with no entry.  A segment the cache holds, or the last entry of a
    listing with entries, gives the parent of the next one; every segment
    but the last is looked for as a folder. *)
Fixpoint unresolved (parts : list string) (parent : option string)
    (cache : gmap string string) (r : R) : bool :=
  match parts with
  | [] => false
  | name :: rest =>
      let mime := match rest with [] => false | _ :: _ => true end in
      match cache !! cache_key parent name mime with
      | Some id => unresolved rest (Some id) cache r
      | None =>
          match files_list (query_string parent name mime) r with
          | (Ok items, r') =>
              match last items with
              | None => true
              | Some it =>
                  unresolved rest (Some (item_id it))
                    (<[cache_key parent name mime := item_id it]> cache) r'
              end
          | (Raise _, _) => false
          end
      end
  end.

(** The key of a storage object cannot be resolved to a remote file: the
    path [folder/key], from the root folder down (a path of one segment is
    looked for under no parent). *)
Definition key_unresolved (st : St) (key : string) : bool :=
  let parts := str_split sep (path_join (folder st) key) in
  unresolved parts
    (match parts with [_] => None | _ => Some (root_folder_id st) end)
    (cache_of st) (service st).



End StorageSpec.

(** ** Vocabulary of the statements about the archivers *)

Section ArchiverSpec.
Import Arch.
Context {W : Type} `{World W}.

Local Abbreviation St := (AState W).

(** On the worlds of [Inv] the call [f] ends with [r] and stays in [Inv]. *)
Definition ends (Inv : W -> Prop) {A} (f : W -> outcome A * W) (r : outcome A) : Prop :=
  forall w, Inv w -> exists w', f w = (r, w') /\ Inv w'.

(** The collaborators of one TikTok attempt that reaches the end of the
    pipeline: each answers, the thumbnailer may fail with an [Exception],
    the scratch file may already be gone when it is removed.  The upload
    is only asked to answer when it is due. *)
Record tiktok_pipeline (Inv : W -> Prop) (url : string) (check_if_exists found : bool)
    (info : tiktok_info) (key : string) (r_thumbs : outcome (string * string))
    (h s : string) (r_remove : outcome unit) (u : string) : Prop := {
  tp_url : contains "tiktok.com" url = true;
  tp_info : ends Inv (info_post url) (Ok info);
  tp_key : ends Inv (get_key (ti_id info +:+ ".mp4")) (Ok key);
  tp_exists : ends Inv (storage_exists key) (Ok found);
  tp_media : exists m0 ms,
    ends Inv (snaptik_get_media url) (Ok (m0 :: ms))
    /\ ends Inv (media_download m0 (path_join TMP_FOLDER key)) (Ok tt);
  tp_upload : check_if_exists && found = false ->
    ends Inv (storage_upload (path_join TMP_FOLDER key) key) (Ok tt);
  tp_thumbs : forall d, ends Inv (get_thumbnails (path_join TMP_FOLDER key) key d) r_thumbs;
  tp_thumbs_exn : forall e, r_thumbs = Raise e -> is_Exception e = true;
  tp_hash : ends Inv (get_hash (path_join TMP_FOLDER key)) (Ok h);
  tp_screenshot : ends Inv (get_screenshot url) (Ok s);
  tp_remove : ends Inv (os_remove (path_join TMP_FOLDER key)) r_remove;
  tp_remove_ok : r_remove = Ok tt \/ r_remove = Raise FileNotFoundError;
  tp_cdn : ends Inv (storage_get_cdn_url key) (Ok u)
}.

(** What the statements about the scratch file assume of the local disk.
    [present f w] reads whether the file [f] is there in the world [w]:
    [os.remove] leaves the file absent when it returns and when it raises
    [FileNotFoundError], a TikTok download that returns leaves its file
    present, and the storage, the thumbnailer, the hasher, the
    screenshotter and [datetime] leave every file as it is, whatever they
    answer. *)
Record scratch_folder (present : string -> W -> bool) : Prop := {
  sf_remove : forall f w r w',
    os_remove f w = (r, w') -> r = Ok tt \/ r = Raise FileNotFoundError ->
    present f w' = false;
  sf_fetch : forall m f w w',
    media_download m f w = (Ok tt, w') -> present f w' = true;
  sf_upload : forall g f k w r w',
    storage_upload f k w = (r, w') -> present g w' = present g w;
  sf_cdn_url : forall g k w r w',
    storage_get_cdn_url k w = (r, w') -> present g w' = present g w;
  sf_thumbnails : forall g f k d w r w',
    get_thumbnails f k d w = (r, w') -> present g w' = present g w;
  sf_hash : forall g f w r w',
    get_hash f w = (r, w') -> present g w' = present g w;
  sf_screenshot : forall g u w r w',
    get_screenshot u w = (r, w') -> present g w' = present g w;
  sf_isoformat : forall g ts w r w',
    utc_isoformat ts w = (r, w') -> present g w' = present g w;
  sf_strptime : forall g d w r w',
    strptime_utc d w = (r, w') -> present g w' = present g w
}.

(** One TikTok attempt that reaches the end of the pipeline, call by call
    from the world [w0] to the world [w']: each collaborator answers, the
    thumbnailer may fail with an [Exception], the scratch file may already
    be gone when it is removed.  The storage is asked whether the key
    exists only with [check_if_exists], and the upload is made unless the
    key was found. *)
Definition tiktok_path (url : string) (check_if_exists found : bool)
    (info : tiktok_info) (key : string) (r_thumbs : outcome (string * string))
    (h s : string) (r_remove : outcome unit) (u : string) (w0 w' : W) : Prop :=
  let filename := path_join TMP_FOLDER key in
  exists w1 w2 w3 m0 ms w4 w5 w6 w7 w8 w9 w10,
    contains "tiktok.com" url = true
    /\ info_post url w0 = (Ok info, w1)
    /\ get_key (ti_id info +:+ ".mp4") w1 = (Ok key, w2)
    /\ (if check_if_exists then storage_exists key w2 = (Ok found, w3) else w3 = w2)
    /\ snaptik_get_media url w3 = (Ok (m0 :: ms), w4)
    /\ media_download m0 filename w4 = (Ok tt, w5)
    /\ (if check_if_exists && found then w6 = w5
        else storage_upload filename key w5 = (Ok tt, w6))
    /\ match ti_duration info with
       | Some d => get_thumbnails filename key (Some d) w6 = (r_thumbs, w7)
                   /\ (forall e, r_thumbs = Raise e -> is_Exception e = true)
       | None => w7 = w6
       end
    /\ get_hash filename w7 = (Ok h, w8)
    /\ get_screenshot url w8 = (Ok s, w9)
    /\ os_remove filename w9 = (r_remove, w10)
    /\ (r_remove = Ok tt \/ r_remove = Raise FileNotFoundError)
    /\ storage_get_cdn_url key w10 = (Ok u, w').

Definition tiktok_trace (check_if_exists found : bool) (key filename : string)
    (r_remove : outcome unit) (u : string) : list aevent :=
  (if check_if_exists then [EvExists key (Ok found)] else [])
  ++ [EvFetch filename (Ok tt)]
  ++ (if check_if_exists && found then [] else [EvUpload filename key (Ok tt)])
  ++ [EvRemove filename r_remove; EvCdnUrl key (Ok u)].

(** What lines 42 to 47 leave in [key_thumb, thumb_index]. *)
Definition tiktok_thumbs_value (info : tiktok_info) (r_thumbs : outcome (string * string))
    : string * string :=
  match ti_duration info, r_thumbs with
  | Some _, Ok t => t
  | _, _ => ("", "error creating thumbnails")
  end.

(** The result of line 58. *)
Definition tiktok_result (status : string) (info : tiktok_info)
    (r_thumbs : outcome (string * string)) (h s u : string) : ArchiveResult :=
  let t := tiktok_thumbs_value info r_thumbs in
  mkResult status (Some u) (Some (fst t)) (Some (snd t))
    (Some (default 0 (ti_duration info))) (Some (default "" (ti_caption info)))
    (Isoformat <$> ti_create info) (Some h) (Some s).

(** [info], or its only entry when it has an [entries] list of one. *)
Definition single (info : ytinfo) : option ytinfo :=
  match yi_entries info with
  | None => Some info
  | Some [e] => Some e
  | Some _ => None
  end.

(** The page is not a tweet, or the video is the tweet's own. *)
Definition twitter_direct (netloc : string) (info : ytinfo) : bool :=
  if contains "twitter.com" netloc then
    match yi_webpage_url info with
    | Some u => contains "https://twitter.com/" u
    | None => false
    end
  else true.

(** Line 83 and 84: the name of the scratch file. *)
Definition scratch_name (there : bool) (filename : string) : string :=
  if negb there then hd "" (str_split "."%char filename) +:+ ".mkv" else filename.

(** One yt-dlp attempt with [check_if_exists] that finds its key in the
    storage and reaches the end of the pipeline, call by call from the
    world [w0] to the world [w']: the storage gives [u] for [key], the
    download leaves [info2], the scratch file is [filename], and every
    collaborator on the way answers; the thumbnailer may fail. *)
Definition youtubedl_archived_path (fb_cookie : option string) (url : string)
    (info1 info2 : ytinfo) (key u filename : string) (w0 w' : W) : Prop :=
  exists netloc w1 w2 w3 v1 name1 w4 w5 w6 w7 w8 v2 name2 w9 there w10 h w11 s w12
         r_thumbs w13 w14,
    get_netloc url w0 = (Ok netloc, w1)
    /\ (if (bool_decide (netloc = "facebook.com")
            || bool_decide (netloc = "www.facebook.com")) && truthy fb_cookie
        then set_cookie_header (default "" fb_cookie) w1 = (Ok tt, w2)
        else w2 = w1)
    /\ extract_info url false w2 = (Ok info1, w3)
    /\ default false (yi_is_live info1) = false
    /\ twitter_direct netloc info1 = true
    /\ single info1 = Some v1
    /\ prepare_filename v1 w3 = (Ok name1, w4)
    /\ get_key name1 w4 = (Ok key, w5)
    /\ storage_exists key w5 = (Ok true, w6)
    /\ storage_get_cdn_url key w6 = (Ok u, w7)
    /\ extract_info url true w7 = (Ok info2, w8)
    /\ single info2 = Some v2
    /\ prepare_filename v2 w8 = (Ok name2, w9)
    /\ os_path_exists name2 w9 = (Ok there, w10)
    /\ filename = scratch_name there name2
    /\ get_hash filename w10 = (Ok h, w11)
    /\ get_screenshot url w11 = (Ok s, w12)
    /\ get_thumbnails filename key (yi_duration v2) w12 = (r_thumbs, w13)
    /\ os_remove filename w13 = (Ok tt, w14)
    /\ match yi_timestamp v2 with
       | Some ts => exists t, utc_isoformat ts w14 = (Ok t, w')
       | None =>
           match yi_upload_date v2 with
           | Some d => exists t, strptime_utc d w14 = (Ok t, w')
           | None => w' = w14
           end
       end.

(** What the trace of a TikTok attempt holds, by the status returned. *)
Definition tiktok_contract (check_if_exists : bool) (res : ArchiveResult)
    (new : list aevent) : Prop :=
  (status res = "already archived" ->
     check_if_exists = true
     /\ exists key f rr u,
          new = [EvExists key (Ok true); EvFetch f (Ok tt); EvRemove f rr;
                 EvCdnUrl key (Ok u)]
          /\ cdn_url res = Some u
          /\ (rr = Ok tt \/ rr = Raise FileNotFoundError))
  /\ (status res = "success" ->
        exists key f rr u,
          new = (if check_if_exists then [EvExists key (Ok false)] else [])
                ++ [EvFetch f (Ok tt); EvUpload f key (Ok tt); EvRemove f rr;
                    EvCdnUrl key (Ok u)]
          /\ cdn_url res = Some u
          /\ (rr = Ok tt \/ rr = Raise FileNotFoundError))
  /\ (status res = "Could not download media" ->
        cdn_url res = None
        /\ (new = [] \/ exists key, new = [EvExists key (Ok false)]))
  /\ (status res = "Could not download media, but already archived" ->
        exists key u,
          new = [EvExists key (Ok true); EvCdnUrl key (Ok u)] /\ cdn_url res = Some u).

(** What the trace of a yt-dlp attempt holds, by the status returned. *)
Definition youtubedl_contract (url : string) (check_if_exists : bool)
    (res : ArchiveResult) (new : list aevent) : Prop :=
  (status res = "Streaming media" ->
     exists info, new = [EvExtract url false (Ok info)]
                  /\ yi_is_live info = Some true /\ cdn_url res = None)
  /\ (status res = "already archived" ->
        check_if_exists = true
        /\ exists i1 i2 key u f,
             new = [EvExtract url false (Ok i1); EvExists key (Ok true);
                    EvCdnUrl key (Ok u); EvExtract url true (Ok i2);
                    EvRemove f (Ok tt)]
             /\ cdn_url res = Some u)
  /\ (status res = "success" ->
        exists i1 i2 key0 key u f,
          new = [EvExtract url false (Ok i1)]
                ++ (if check_if_exists then [EvExists key0 (Ok false)] else [])
                ++ [EvExtract url true (Ok i2); EvUpload f key (Ok tt);
                    EvCdnUrl key (Ok u); EvRemove f (Ok tt)]
          /\ cdn_url res = Some u).

(** Neither an upload nor a removal of a scratch file. *)
Definition no_upload_no_cleanup (e : aevent) : Prop :=
  match e with
  | EvUpload _ _ _ | EvRemove _ _ => False
  | _ => True
  end.

End ArchiverSpec.

(** ** Running the monad *)

Lemma bind_ok {S A B} (m : M S A) (k : A -> M S B) s a s' :
  m s = (Ok a, s') -> bind m k s = k a s'.
Proof. unfold bind. by intros ->. Qed.

Lemma bind_raise {S A B} (m : M S A) (k : A -> M S B) s e s' :
  m s = (Raise e, s') -> bind m k s = (Raise e, s').
Proof. unfold bind. by intros ->. Qed.

Lemma bind_assoc {S A B C} (m : M S A) (k1 : A -> M S B) (k2 : B -> M S C) s :
  bind (bind m k1) k2 s = bind m (fun a => bind (k1 a) k2) s.
Proof. unfold bind. by destruct (m s) as [[a|e] s1]. Qed.


(** ** Facts about the storage backend *)

Section StorageFacts.
Import GD.
Context {R : Type} `{Drive R}.

Local Abbreviation St := (GDStorage R).

Lemma miss_log_lists q secs k :
  length (filter (fun e => is_list e = true) (miss_log q secs k)) = k.
Proof.
  induction k as [|k IH]; [done|].
  destruct k as [|k]; [done|].
  change (miss_log q secs (S (S k)))
    with (EList q (Ok []) :: ESleep secs (Ok tt) :: miss_log q secs (S k)).
  rewrite filter_cons_True by done. rewrite filter_cons_False by done.
  cbn [length]. by rewrite IH.
Qed.

Lemma miss_log_sleeps q secs k :
  length (filter (fun e => is_sleep e = true) (miss_log q secs k)) = pred k.
Proof.
  induction k as [|k IH]; [done|].
  destruct k as [|k]; [done|].
  change (miss_log q secs (S (S k)))
    with (EList q (Ok []) :: ESleep secs (Ok tt) :: miss_log q secs (S k)).
  rewrite filter_cons_False by done. rewrite filter_cons_True by done.
  cbn [length]. by rewrite IH.
Qed.

Lemma miss_log_creates q secs k :
  filter (fun e => is_create e = true) (miss_log q secs k) = [].
Proof.
  induction k as [|k IH]; [done|].
  destruct k as [|k]; [done|].
  change (miss_log q secs (S (S k)))
    with (EList q (Ok []) :: ESleep secs (Ok tt) :: miss_log q secs (S k)).
  rewrite filter_cons_False by done. by rewrite filter_cons_False by done.
Qed.

Lemma miss_log_last q secs k :
  last (miss_log q secs (S k)) = Some (EList q (Ok [])).
Proof.
  induction k as [|k IH]; [done|].
  change (miss_log q secs (S (S k)))
    with (EList q (Ok []) :: ESleep secs (Ok tt) :: miss_log q secs (S k)).
  rewrite !last_cons, IH. done.
Qed.

Lemma call_list_run q (st : St) r rem :
  files_list q (service st) = (r, rem) ->
  call_list q st = (r, set_remote rem (EList q r) st).
Proof. unfold call_list. by intros ->. Qed.

Lemma call_sleep_run secs (st : St) r rem :
  time_sleep secs (service st) = (r, rem) ->
  call_sleep secs st = (r, set_remote rem (ESleep secs r) st).
Proof. unfold call_sleep. by intros ->. Qed.

Lemma call_media_run file (st : St) r rem :
  media_file_upload file (service st) = (r, rem) ->
  call_media file st = (r, set_remote rem (EMedia file r) st).
Proof. unfold call_media. by intros ->. Qed.

Lemma call_create_run body media (st : St) r rem :
  files_create body media (service st) = (r, rem) ->
  call_create body media st = (r, set_remote rem (ECreate body media r) st).
Proof. unfold call_create. by intros ->. Qed.

Lemma attempts_missing Inv q secs key retries use_cache :
  always_missing Inv q secs ->
  forall k a (st : St),
    Inv (service st) ->
    Z.of_nat (a + k) = retries ->
    exists st',
      attempts (Z.of_nat <$> seq a k) q key retries secs use_cache st = (Ok None, st')
      /\ calls st' = calls st ++ miss_log q secs k
      /\ api_cache st' = api_cache st
      /\ folder st' = folder st /\ root_folder_id st' = root_folder_id st
      /\ Inv (service st').
Proof.
  intros [Hl Hs]. induction k as [|k IH]; intros a st Hinv Hn.
  - exists st. simpl. rewrite app_nil_r. done.
  - destruct (Hl _ Hinv) as (r1 & Hr1 & Hinv1).
    change (Z.of_nat <$> seq a (S k)) with (Z.of_nat a :: (Z.of_nat <$> seq (S a) k)).
    cbn [attempts]. erewrite bind_ok by (by apply call_list_run).
    change (0 <? Z.of_nat (length (@nil item))) with false. cbv iota.
    destruct k as [|k].
    + assert ((Z.of_nat a <? retries - 1) = false) as -> by lia.
      eexists; split; [reflexivity|]. simpl. done.
    + assert ((Z.of_nat a <? retries - 1) = true) as -> by lia.
      destruct (Hs _ Hinv1) as (r2 & Hr2 & Hinv2).
      erewrite bind_ok by (by apply call_sleep_run).
      edestruct (IH (S a)) as (st' & Hrun & Hc & Hcache & Hf & Hroot & Hinv');
        [ | | rewrite Hrun ].
      * exact Hinv2.
      * lia.
      * exists st'. split; [done|]. rewrite Hc. cbn [calls set_remote].
        rewrite <- !app_assoc. done.
Qed.

Lemma set_cache_id (st : St) c :
  api_cache st = Some c -> set_cache (cache_of st) st = st.
Proof.
  destruct st as [f r [c'|] sv cl]; unfold set_cache, cache_of; simpl; [|done].
  by intros [= ->].
Qed.

Lemma get_id_cache_hit parent_id name retries secs mime raise_on_missing (st : St) id :
  cache_of st !! cache_key parent_id name mime = Some id ->
  _get_id_from_parent_and_name parent_id name retries secs mime raise_on_missing
    true st = (Ok (Some id), set_cache (cache_of st) st).
Proof.
  intros Hhit. unfold _get_id_from_parent_and_name.
  erewrite bind_ok by reflexivity. by rewrite Hhit.
Qed.

(** A listing with a match on the first attempt: the last entry wins. *)
Lemma get_id_first_attempt parent_id name retries secs mime raise_on_missing
    use_cache (st : St) items x rem :
  1 <= retries ->
  (use_cache = true -> cache_of st !! cache_key parent_id name mime = None) ->
  files_list (query_string parent_id name mime) (service st) = (Ok (items ++ [x]), rem) ->
  let ev := EList (query_string parent_id name mime) (Ok (items ++ [x])) in
  _get_id_from_parent_and_name parent_id name retries secs mime raise_on_missing
    use_cache st
  = (Ok (Some (item_id x)),
     if use_cache
     then set_cache (<[cache_key parent_id name mime := item_id x]> (cache_of st))
            (set_remote rem ev (set_cache (cache_of st) st))
     else set_remote rem ev st).
Proof.
  intros Hr Hmiss Hlist ev. unfold _get_id_from_parent_and_name.
  assert (exists l, range retries = 0 :: l) as [l ->].
  { unfold range. replace (Z.to_nat retries) with (S (Z.to_nat (retries - 1))) by lia.
    by eexists. }
  destruct use_cache.
  - erewrite bind_ok by reflexivity. rewrite Hmiss by done.
    cbn [attempts]. erewrite bind_ok; cycle 1.
    { erewrite bind_ok by (by apply call_list_run).
      rewrite length_app, last_snoc. cbn [length].
      assert ((0 <? Z.of_nat (length items + 1)) = true) as -> by (apply Z.ltb_lt; lia).
      erewrite bind_ok by reflexivity. reflexivity. }
    reflexivity.
  - erewrite bind_ok by reflexivity.
    cbn [attempts]. erewrite bind_ok; cycle 1.
    { erewrite bind_ok by (by apply call_list_run).
      rewrite length_app, last_snoc. cbn [length].
      assert ((0 <? Z.of_nat (length items + 1)) = true) as -> by (apply Z.ltb_lt; lia).
      erewrite bind_ok by reflexivity. reflexivity. }
    reflexivity.
Qed.




(** C2: a read-path resolution whose listing is empty on every attempt
    lists exactly [retries] times, sleeps [sleep_seconds] between two
    consecutive attempts and not after the last, and then raises the
    not-found [ValueError]. *)
Theorem read_path_exact_attempts (Inv : R -> Prop) parent_id name retries secs
    mime use_cache (st : St) :
  1 <= retries ->
  (use_cache = true -> cache_of st !! cache_key parent_id name mime = None) ->
  always_missing Inv (query_string parent_id name mime) secs ->
  Inv (service st) ->
  exists msg st' new,
    _get_id_from_parent_and_name parent_id name retries secs mime true use_cache st
      = (Raise (ValueError msg), st')
    /\ calls st' = calls st ++ new
    /\ new = miss_log (query_string parent_id name mime) secs (Z.to_nat retries)
    /\ Z.of_nat (length (filter (fun e => is_list e = true) new)) = retries
    /\ Z.of_nat (length (filter (fun e => is_sleep e = true) new)) = retries - 1
    /\ last new = Some (EList (query_string parent_id name mime) (Ok [])).
Proof.
  intros Hr Hmiss Ham Hinv.
  set (q := query_string parent_id name mime).
  assert (Hinv0 : Inv (service (if use_cache then set_cache (cache_of st) st else st)))
    by (by destruct use_cache).
  destruct (attempts_missing Inv q secs (cache_key parent_id name mime) retries
              use_cache Ham (Z.to_nat retries) 0%nat _ Hinv0)
    as (st' & Hrun & Hc & _); [lia|].
  assert (Hcalls : calls st' = calls st ++ miss_log q secs (Z.to_nat retries)).
  { rewrite Hc. by destruct use_cache. }
  assert (Hres : exists msg,
    _get_id_from_parent_and_name parent_id name retries secs mime true use_cache st
      = (Raise (ValueError msg), st')).
  { unfold _get_id_from_parent_and_name, range. fold q. destruct use_cache.
    - eexists. erewrite bind_ok by reflexivity. rewrite Hmiss by done.
      rewrite (bind_ok _ _ _ _ _ Hrun). reflexivity.
    - eexists. erewrite bind_ok by reflexivity. cbv beta iota.
      rewrite (bind_ok _ _ _ _ _ Hrun). reflexivity. }
  destruct Hres as [msg Hres].
  exists msg, st', (miss_log q secs (Z.to_nat retries)).
  split; [exact Hres|]. split; [exact Hcalls|]. split; [reflexivity|].
  rewrite miss_log_lists, miss_log_sleeps.
  destruct (Z.to_nat retries) as [|n] eqn:E; [lia|].
  rewrite miss_log_last. repeat split; lia.
Qed.

(** The retry loop when it returns an id: the attempts before the one
    that matched listed nothing and were each followed by a sleep. *)
Lemma attempts_found q key retries secs :
  forall n a (st : St) id st1,
    Z.of_nat (a + n) = retries ->
    attempts (Z.of_nat <$> seq a n) q key retries secs true st = (Ok (Some id), st1) ->
    exists k items,
      (k < n)%nat
      /\ calls st1 = calls st ++ retry_log q secs k ++ [EList q (Ok items)]
      /\ item_id <$> last items = Some id
      /\ api_cache st1 = Some (<[key := id]> (cache_of st)).
Proof.
  induction n as [|n IH]; intros a st id st1 Hn Hrun; [discriminate|].
  change (Z.of_nat <$> seq a (S n)) with (Z.of_nat a :: (Z.of_nat <$> seq (S a) n)) in Hrun.
  cbn [attempts] in Hrun. unfold bind at 1 in Hrun. unfold call_list in Hrun.
  destruct (files_list q (service st)) as [[items|e] rem] eqn:Hl; [|discriminate].
  destruct items as [|i items].
  - change (0 <? Z.of_nat (length (@nil item))) with false in Hrun. cbv iota in Hrun.
    unfold bind at 1 in Hrun.
    destruct (Z.of_nat a <? retries - 1) eqn:Hlt.
    + unfold call_sleep in Hrun. cbn [service set_remote] in Hrun.
      destruct (time_sleep secs rem) as [[[]|e] rem2] eqn:Hs; [|discriminate].
      apply IH in Hrun; [|lia].
      destruct Hrun as (k & items & Hk & Hc & Hlast & Hcache).
      exists (S k), items. split; [lia|]. split; [|done].
      rewrite Hc. cbn [calls set_remote retry_log]. by rewrite <- !app_assoc.
    + assert (n = 0%nat) as -> by lia. discriminate.
  - assert (Hpos : (0 <? Z.of_nat (length (i :: items))) = true)
      by (apply Z.ltb_lt; cbn [length]; lia).
    rewrite Hpos in Hrun.
    destruct (last (i :: items)) as [it|] eqn:Hlast; [|discriminate].
    unfold bind, ret in Hrun. injection Hrun as <- <-.
    exists 0%nat, (i :: items). split; [lia|]. rewrite Hlast. done.
Qed.

(** C4, as the code has it: once a resolution of a triple has returned an
    id after a cache miss, a second resolution of the triple by the same
    storage object returns that id without any call and leaves the object
    as it is.  The first resolution made one list query per attempt it
    needed: [k] attempts that listed nothing, each followed by a sleep,
    and the one that matched, with [k < retries]; with the single attempt
    of the default that is exactly one list query for the two
    resolutions. *)
Theorem second_resolution_from_cache parent_id name retries secs1 mime raise1
    (st st1 : St) id :
  cache_of st !! cache_key parent_id name mime = None ->
  _get_id_from_parent_and_name parent_id name retries secs1 mime raise1
    true st = (Ok (Some id), st1) ->
  let q := query_string parent_id name mime in
  exists k items,
    Z.of_nat k < retries
    /\ calls st1 = calls st ++ retry_log q secs1 k ++ [EList q (Ok items)]
    /\ item_id <$> last items = Some id
    /\ (retries = default_retries -> calls st1 = calls st ++ [EList q (Ok items)])
    /\ forall retries2 secs2 raise2,
         _get_id_from_parent_and_name parent_id name retries2 secs2 mime raise2 true st1
         = (Ok (Some id), st1).
Proof.
  intros Hmiss Hrun q. unfold _get_id_from_parent_and_name in Hrun.
  erewrite bind_ok in Hrun by reflexivity. rewrite Hmiss in Hrun.
  unfold bind at 1 in Hrun. fold q in Hrun.
  destruct (attempts _ _ _ _ _ _ _) as [[[id'|]|e] st0] eqn:Ha;
    [|destruct raise1; discriminate|discriminate].
  injection Hrun as <- <-. unfold range in Ha.
  apply (attempts_found q _ retries secs1 (Z.to_nat retries) 0%nat) in Ha; cycle 1.
  { destruct (Z.to_nat retries) eqn:E; [discriminate Ha|lia]. }
  destruct Ha as (k & items & Hk & Hc & Hlast & Hcache).
  exists k, items. split; [lia|]. split; [exact Hc|]. split; [exact Hlast|]. split.
  - intros ->. rewrite Hc. assert (k = 0%nat) as -> by (unfold default_retries in Hk; lia).
    done.
  - intros retries2 secs2 raise2.
    rewrite (get_id_cache_hit _ _ _ _ _ _ _ id').
    + by erewrite set_cache_id.
    + unfold cache_of. rewrite Hcache. simpl. apply lookup_insert_eq.
Qed.

(** C5: when the listing of a query has entries, the resolution returns
    the id of the last one, whatever comes before it in the list, and any
    further resolution by the same storage object returns that id again. *)
Theorem resolution_takes_last parent_id name retries secs mime raise_on_missing
    use_cache (st : St) items x rem :
  1 <= retries ->
  (use_cache = true -> cache_of st !! cache_key parent_id name mime = None) ->
  files_list (query_string parent_id name mime) (service st) = (Ok (items ++ [x]), rem) ->
  exists st1,
    _get_id_from_parent_and_name parent_id name retries secs mime raise_on_missing
      use_cache st = (Ok (Some (item_id x)), st1)
    /\ (use_cache = true ->
        forall retries2 secs2 raise2,
          _get_id_from_parent_and_name parent_id name retries2 secs2 mime raise2
            true st1 = (Ok (Some (item_id x)), st1))
    /\ (forall rem2,
          files_list (query_string parent_id name mime) (service st1)
            = (Ok (items ++ [x]), rem2) ->
          forall raise2, exists st2,
            _get_id_from_parent_and_name parent_id name retries secs mime raise2
              false st1 = (Ok (Some (item_id x)), st2)).
Proof.
  intros Hr Hmiss Hlist. eexists. split; [|split].
  - by apply get_id_first_attempt.
  - intros -> retries2 secs2 raise2.
    rewrite (get_id_cache_hit _ _ _ _ _ _ _ (item_id x)).
    + by erewrite set_cache_id.
    + unfold cache_of. simpl. apply lookup_insert_eq.
  - intros rem2 Hl2 raise2. eexists.
    by apply get_id_first_attempt.
Qed.

(** A read-path resolution with the single default attempt whose listing
    has no entry. *)
Lemma get_id_default_empty parent_id name secs mime (st : St) rem :
  cache_of st !! cache_key parent_id name mime = None ->
  files_list (query_string parent_id name mime) (service st) = (Ok [], rem) ->
  exists msg,
    _get_id_from_parent_and_name parent_id name default_retries secs mime true true st
    = (Raise (ValueError msg),
       set_remote rem (EList (query_string parent_id name mime) (Ok []))
         (set_cache (cache_of st) st)).
Proof.
  intros Hmiss Hl. eexists. unfold _get_id_from_parent_and_name.
  erewrite bind_ok by reflexivity. rewrite Hmiss.
  change (range default_retries) with [0]. cbn [attempts].
  erewrite bind_ok; cycle 1.
  { erewrite bind_ok by (apply call_list_run; exact Hl). reflexivity. }
  reflexivity.
Qed.

(** The walk of [get_cdn_url] on a path that cannot be resolved. *)
Lemma unresolved_raises filename :
  forall folders parent_id folder_id (st : St),
    unresolved (folders ++ [filename])
      (match folders with [] => folder_id | _ :: _ => parent_id end)
      (cache_of st) (service st) = true ->
    exists msg st',
      (ids <- get_cdn_url_folders folders parent_id folder_id ;;
       file_id <- _get_id_from_parent_and_name (snd ids) filename default_retries
                    default_sleep_seconds false true true ;;
       ret (view_url file_id)) st = (Raise (ValueError msg), st').
Proof.
  induction folders as [|f rest IH]; intros parent_id folder_id st Hun.
  - cbn [app unresolved] in Hun. cbn [get_cdn_url_folders].
    erewrite bind_ok by reflexivity. cbn [snd].
    destruct (cache_of st !! cache_key folder_id filename false) eqn:Hc; [done|].
    destruct (files_list _ (service st)) as [[items|e] rem] eqn:Hl; [|done].
    destruct (last items) as [it|] eqn:Hlast; [done|].
    apply last_None in Hlast. subst items.
    destruct (get_id_default_empty _ _ default_sleep_seconds _ _ _ Hc Hl) as [msg Hrun].
    erewrite bind_raise by exact Hrun. by eexists _, _.
  - assert (Hmime : match rest ++ [filename] with [] => false | _ :: _ => true end = true)
      by (by destruct rest).
    change ((f :: rest) ++ [filename]) with (f :: (rest ++ [filename])) in Hun.
    cbn [unresolved] in Hun. rewrite Hmime in Hun. cbn [get_cdn_url_folders].
    assert (Hnext : forall id (st1 : St),
      unresolved (rest ++ [filename]) (Some id) (cache_of st1) (service st1) = true ->
      exists msg st',
        (ids <- get_cdn_url_folders rest (Some id) (Some id) ;;
         file_id <- _get_id_from_parent_and_name (snd ids) filename default_retries
                      default_sleep_seconds false true true ;;
         ret (view_url file_id)) st1 = (Raise (ValueError msg), st')).
    { intros id st1 Hun1. apply IH. by destruct rest. }
    rewrite bind_assoc.
    destruct (cache_of st !! cache_key parent_id f true) as [id|] eqn:Hc.
    + erewrite bind_ok by (by apply get_id_cache_hit). by apply Hnext.
    + destruct (files_list _ (service st)) as [[items|e] rem] eqn:Hl; [|done].
      destruct (last items) as [it|] eqn:Hlast.
      * apply last_Some in Hlast as [items' ->].
        erewrite bind_ok by (apply get_id_first_attempt; [done|done|exact Hl]).
        by apply Hnext.
      * apply last_None in Hlast. subst items.
        destruct (get_id_default_empty _ _ default_sleep_seconds _ _ _ Hc Hl) as [msg Hrun].
        erewrite bind_raise by exact Hrun. by eexists _, _.
Qed.

Lemma exists_run (st : St) key :
  exists_ key st
  = (Ok (is_ok (fst (get_cdn_url key st))), snd (get_cdn_url key st)).
Proof.
  unfold exists_, try_except, bind, ret.
  by destruct (get_cdn_url key st) as [[url|e] st'].
Qed.

(** C6: when the key cannot be resolved, that is when the walk down the
    path [folder/key] meets a segment that the cache does not hold and the
    remote lists with no entry, [get_cdn_url] raises the not-found
    [ValueError] and returns no URL, and [exists] on the same key returns
    [False] from the same state. *)
Theorem get_cdn_url_raises_not_found (st : St) key :
  key_unresolved st key = true ->
  exists msg st',
    get_cdn_url key st = (Raise (ValueError msg), st')
    /\ exists_ key st = (Ok false, st').
Proof.
  unfold key_unresolved. intros Hun.
  assert (Hrun : exists msg st', get_cdn_url key st = (Raise (ValueError msg), st')).
  { unfold get_cdn_url.
    set (parts := str_split sep (path_join (folder st) key)) in *.
    apply unresolved_raises.
    assert (Hne : parts <> []).
    { unfold parts. destruct (path_join (folder st) key) as [|a p]; [done|].
      cbn [str_split]. destruct (Ascii.eqb a sep); [done|]. by destruct (str_split sep p). }
    unfold py_init, py_last. rewrite <- (app_removelast_last "" Hne).
    destruct parts as [|a [|b l]]; done. }
  destruct Hrun as (msg & st' & Hrun).
  exists msg, st'. split; [done|]. by rewrite exists_run, Hrun.
Qed.

(** C9: [exists] never raises, and whatever exception the resolution
    raises, of any class, it returns [False]. *)
Theorem exists_swallows_every_exception (st : St) key :
  (exists b st', exists_ key st = (Ok b, st'))
  /\ (forall e st', get_cdn_url key st = (Raise e, st') ->
        exists_ key st = (Ok false, st')).
Proof.
  split.
  - rewrite exists_run. by eexists _, _.
  - intros e st' Hrun. by rewrite exists_run, Hrun.
Qed.

(** C3, as the code has it: on the write path a folder whose listing is
    empty costs one listing and no retry, then exactly one folder creation
    with that name under the current parent, and the created id becomes
    the parent of what follows; the cache is left as it was. *)
Theorem write_path_creates_uncached (st : St) parent_id folder rem new_id rem'
    rest upload_to0 :
  cache_of st !! cache_key parent_id folder true = None ->
  files_list (query_string parent_id folder true) (service st) = (Ok [], rem) ->
  files_create (Metadata [folder] (Some folder_mime) [parent_id]) None rem
    = (Ok new_id, rem') ->
  exists st',
    uploadf_folder parent_id folder st = (Ok new_id, st')
    /\ calls st' = calls st ++
         [EList (query_string parent_id folder true) (Ok []);
          ECreate (Metadata [folder] (Some folder_mime) [parent_id]) None (Ok new_id)]
    /\ cache_of st' = cache_of st
    /\ service st' = rem'
    /\ uploadf_folders (folder :: rest) parent_id upload_to0 st
       = uploadf_folders rest new_id new_id st'.
Proof.
  intros Hmiss Hlist Hcreate.
  assert (Hrun : exists st',
    uploadf_folder parent_id folder st = (Ok new_id, st')
    /\ calls st' = calls st ++
         [EList (query_string parent_id folder true) (Ok []);
          ECreate (Metadata [folder] (Some folder_mime) [parent_id]) None (Ok new_id)]
    /\ cache_of st' = cache_of st
    /\ service st' = rem').
  { unfold uploadf_folder, _get_id_from_parent_and_name, _mkdir.
    erewrite bind_ok; cycle 1.
    { erewrite bind_ok by reflexivity. rewrite Hmiss.
      change (range default_retries) with [0]. cbn [attempts].
      erewrite bind_ok; cycle 1.
      { erewrite bind_ok by (apply call_list_run; exact Hlist). reflexivity. }
      reflexivity. }
    cbv beta iota. erewrite call_create_run by exact Hcreate.
    eexists. split; [reflexivity|]. cbn. rewrite <- app_assoc. done. }
  destruct Hrun as (st' & Hrun & Hcalls & Hcache & Hsvc).
  exists st'. repeat split; try done.
  cbn [uploadf_folders]. by erewrite bind_ok by exact Hrun.
Qed.



Lemma cache_of_set_cache (st : St) c : cache_of (set_cache c st) = c.
Proof. done. Qed.

Lemma cache_of_set_remote (st : St) r ev : cache_of (set_remote r ev st) = cache_of st.
Proof. done. Qed.

(** The retry loop on any remote: listings and sleeps only, and the cache
    gains at most the id it returns, under a key that was free. *)
Lemma attempts_log l q key retries secs use_cache :
  forall (st : St) r st',
    (use_cache = true -> cache_of st !! key = None) ->
    attempts l q key retries secs use_cache st = (r, st') ->
    folder st' = folder st /\ root_folder_id st' = root_folder_id st
    /\ (exists new, calls st' = calls st ++ new
                    /\ Forall (fun e => is_create e = false) new)
    /\ cache_of st ⊆ cache_of st'
    /\ (forall id, r = Ok (Some id) -> use_cache = true ->
          cache_of st' !! key = Some id /\ is_Some (api_cache st')).
Proof.
  induction l as [|a l IH]; intros st r st' Hfree Hrun.
  - injection Hrun as <- <-. split_and!; try done.
    exists []. by rewrite app_nil_r.
  - cbn [attempts] in Hrun. unfold bind at 1 in Hrun. unfold call_list in Hrun.
    destruct (files_list q (service st)) as [[items|e] rem] eqn:Hl.
    + destruct (0 <? Z.of_nat (length items)).
      * destruct (last items) as [it|].
        -- destruct use_cache.
           ++ unfold bind, ret in Hrun. injection Hrun as <- <-.
              split_and!; try done.
              ** eexists. split; [reflexivity|]. by repeat constructor.
              ** rewrite cache_of_set_cache, cache_of_set_remote.
                 apply insert_subseteq. by apply Hfree.
              ** intros id [= <-] _. rewrite cache_of_set_cache, cache_of_set_remote.
                 split; [apply lookup_insert_eq|done].
           ++ unfold bind, ret in Hrun. injection Hrun as <- <-.
              split_and!; try done.
              eexists. split; [reflexivity|]. by repeat constructor.
        -- injection Hrun as <- <-. split_and!; try done.
           eexists. split; [reflexivity|]. by repeat constructor.
      * unfold bind at 1 in Hrun.
        destruct (a <? retries - 1).
        -- unfold call_sleep in Hrun. cbn [service set_remote] in Hrun.
           destruct (time_sleep secs rem) as [[[]|e] rem2] eqn:Hs.
           ++ apply IH in Hrun; [|done].
              destruct Hrun as (Hf & Hr & (new & Hc & Hn) & Hsub & Hid).
              split_and!; try done.
              exists ([EList q (Ok items); ESleep secs (Ok tt)] ++ new).
              split; [rewrite Hc; cbn; by rewrite <- !app_assoc|].
              apply Forall_app. split; [by repeat constructor|done].
           ++ injection Hrun as <- <-. split_and!; try done.
              exists [EList q (Ok items); ESleep secs (Raise e)].
              split; [cbn; by rewrite <- app_assoc|by repeat constructor].
        -- unfold ret in Hrun. apply IH in Hrun; [|done].
           destruct Hrun as (Hf & Hr & (new & Hc & Hn) & Hsub & Hid).
           split_and!; try done.
           exists ([EList q (Ok items)] ++ new).
           split; [rewrite Hc; cbn; by rewrite <- !app_assoc|].
           apply Forall_app. split; [by repeat constructor|done].
    + injection Hrun as <- <-. split_and!; try done.
      eexists. split; [reflexivity|]. by repeat constructor.
Qed.

(** Any resolution on any remote. *)
Lemma get_id_log parent_id name retries secs mime raise_on_missing use_cache
    (st : St) r st' :
  _get_id_from_parent_and_name parent_id name retries secs mime raise_on_missing
    use_cache st = (r, st') ->
  folder st' = folder st /\ root_folder_id st' = root_folder_id st
  /\ (exists new, calls st' = calls st ++ new
                  /\ Forall (fun e => is_create e = false) new)
  /\ cache_of st ⊆ cache_of st'
  /\ (forall id, r = Ok (Some id) -> use_cache = true ->
        cache_of st' !! cache_key parent_id name mime = Some id
        /\ is_Some (api_cache st')).
Proof.
  unfold _get_id_from_parent_and_name. intros Hrun.
  destruct use_cache.
  - erewrite bind_ok in Hrun by reflexivity.
    destruct (cache_of st !! cache_key parent_id name mime) as [cached|] eqn:Hc.
    + injection Hrun as <- <-. split_and!; try done.
      * exists []. cbn. by rewrite app_nil_r.
      * by intros id [= <-] _.
    + unfold bind at 1 in Hrun.
      destruct (attempts _ _ _ _ _ _ _) as [[found|e] st1] eqn:Ha.
      * apply attempts_log in Ha; [|done].
        destruct Ha as (Hf & Hr & Hn & Hsub & Hid).
        destruct found as [id|].
        -- injection Hrun as <- <-.
           split_and!; try done; intros id' [= <-] _; by apply Hid.
        -- destruct raise_on_missing; injection Hrun as <- <-; split_and!; done.
      * injection Hrun as <- <-. apply attempts_log in Ha; [|done].
        destruct Ha as (Hf & Hr & Hn & Hsub & Hid). split_and!; done.
  - erewrite bind_ok in Hrun by reflexivity. cbv beta iota in Hrun.
    unfold bind at 1 in Hrun.
    destruct (attempts _ _ _ _ _ _ _) as [[found|e] st1] eqn:Ha.
    + apply attempts_log in Ha; [|done].
      destruct Ha as (Hf & Hr & Hn & Hsub & Hid).
      destruct found as [id|].
      * injection Hrun as <- <-. split_and!; done.
      * destruct raise_on_missing; injection Hrun as <- <-; split_and!; done.
    + injection Hrun as <- <-. apply attempts_log in Ha; [|done].
      destruct Ha as (Hf & Hr & Hn & Hsub & Hid). split_and!; done.
Qed.





End StorageFacts.

(** ** Running the archivers *)

Section Traces.
Import Arch.
Context {W : Type} `{World W}.

Local Abbreviation St := (AState W).

Lemma quiet_run {A} (f : W -> outcome A * W) (st : St) r w' :
  f (world st) = (r, w') -> quiet f st = (r, mkA w' (trace st)).
Proof. unfold quiet. by intros ->. Qed.

Lemma logged_run {A} (ev : outcome A -> aevent) (f : W -> outcome A * W) (st : St) r w' :
  f (world st) = (r, w') -> logged ev f st = (r, mkA w' (trace st ++ [ev r])).
Proof. unfold logged. by intros ->. Qed.

Lemma quiet_inv {A} (f : W -> outcome A * W) (st : St) r st' :
  quiet f st = (r, st') -> trace st' = trace st.
Proof. unfold quiet. destruct (f (world st)). by intros [= <- <-]. Qed.

Lemma logged_inv {A} (ev : outcome A -> aevent) (f : W -> outcome A * W) (st : St) r st' :
  logged ev f st = (r, st') -> trace st' = trace st ++ [ev r].
Proof. unfold logged. destruct (f (world st)). by intros [= <- <-]. Qed.



End Traces.

(** One call of a run whose answer is among the assumptions. *)
Ltac step :=
  rewrite ?bind_assoc;
  first [ erewrite bind_ok by (apply quiet_run; eassumption)
        | erewrite bind_ok by (apply logged_run; eassumption)
        | erewrite bind_ok by reflexivity ];
  cbv beta iota; cbn [Arch.world Arch.trace].

(** Case analysis on every collaborator call of a run, in order. *)
Ltac run_all H :=
  repeat (cbn [Arch.world Arch.trace fst snd negb String.eqb Ascii.eqb Bool.eqb andb orb] in H;
          first [ discriminate H
                | match type of H with
                  | context [match ?x with _ => _ end] =>
                      lazymatch x with
                      | context [match _ with _ => _ end] => fail
                      | _ => destruct x eqn:?
                      end
                  end ]);
  cbn [Arch.world Arch.trace fst snd negb String.eqb Ascii.eqb Bool.eqb andb orb] in H.

(** The trace of the final state, in terms of the trace of the first. *)
Ltac collect_trace :=
  repeat match goal with
    | H : Arch.quiet _ _ = (_, _) |- _ => apply quiet_inv in H
    | H : Arch.logged _ _ _ = (_, _) |- _ => apply logged_inv in H
    end;
  simplify_eq;
  repeat match goal with
    | H : Arch.trace ?s = _ |- context [Arch.trace ?s] => rewrite H
    end;
  rewrite <- ?app_assoc; cbn [app].



(** ** Facts about the archivers *)

Section ArchiverFacts.
Import Arch.
Context {W : Type} `{World W}.

Local Abbreviation St := (AState W).

Lemma quiet_ends Inv {A} (f : W -> outcome A * W) r (st : St) :
  ends Inv f r -> Inv (world st) ->
  exists st', quiet f st = (r, st') /\ Inv (world st') /\ trace st' = trace st.
Proof.
  intros Hf Hinv. destruct (Hf _ Hinv) as (w' & Hrun & Hinv').
  exists (mkA w' (trace st)). unfold quiet. by rewrite Hrun.
Qed.

Lemma logged_ends Inv {A} (ev : outcome A -> aevent) (f : W -> outcome A * W) r (st : St) :
  ends Inv f r -> Inv (world st) ->
  exists st', logged ev f st = (r, st') /\ Inv (world st') /\ trace st' = trace st ++ [ev r].
Proof.
  intros Hf Hinv. destruct (Hf _ Hinv) as (w' & Hrun & Hinv').
  exists (mkA w' (trace st ++ [ev r])). unfold logged. by rewrite Hrun.
Qed.

(** [TiktokArchiver.download] returns on every world: everything after
    the domain test is inside the [try], and the last handler is bare. *)
Lemma tiktok_download_never_raises url check_if_exists (st : St) :
  exists r st', tiktok_download url check_if_exists st = (Ok r, st').
Proof.
  unfold tiktok_download. destruct (negb (contains "tiktok.com" url)).
  - by eexists _, _.
  - unfold try_except.
    destruct (tiktok_try url check_if_exists st) as [[r|e] st'].
    + by eexists _, _.
    + destruct e; by eexists _, _.
Qed.

Lemma tiktok_thumbnails_ends Inv info filename key r_thumbs (st : St) :
  (forall d, ends Inv (get_thumbnails filename key d) r_thumbs) ->
  (forall e, r_thumbs = Raise e -> is_Exception e = true) ->
  Inv (world st) ->
  exists st', tiktok_thumbnails info filename key st
                = (Ok (tiktok_thumbs_value info r_thumbs), st')
    /\ Inv (world st') /\ trace st' = trace st.
Proof.
  intros Ht He Hinv. unfold tiktok_thumbnails, try_except, tiktok_thumbs_value.
  destruct (ti_duration info) as [d|].
  - destruct (quiet_ends Inv _ _ st (Ht (Some d)) Hinv) as (st1 & R1 & I1 & T1).
    rewrite R1. destruct r_thumbs as [t|e].
    + by eexists.
    + rewrite (He e eq_refl). by eexists.
  - cbn. by eexists.
Qed.

Lemma tiktok_pipeline_run Inv url check_if_exists found info key r_thumbs h s r_remove u
    (st : St) :
  tiktok_pipeline Inv url check_if_exists found info key r_thumbs h s r_remove u ->
  Inv (world st) ->
  exists st',
    tiktok_download url check_if_exists st
      = (Ok (Result (tiktok_result
                       (if check_if_exists && found then "already archived" else "success")
                       info r_thumbs h s u)), st')
    /\ trace st' = trace st
         ++ tiktok_trace check_if_exists found key (path_join TMP_FOLDER key) r_remove u.
Proof.
  intros [Hurl Hinfo Hkey Hex (m0 & ms & Hmedia & Hfetch) Hup Hth Hthe
            Hhash Hshot Hrm Hrmok Hcdn] Hinv.
  unfold tiktok_download. rewrite Hurl. cbn [negb].
  set (filename := path_join TMP_FOLDER key) in *.
  set (stat := if check_if_exists && found then "already archived" else "success").
  assert (Hstat : String.eqb stat "already archived" = check_if_exists && found).
  { unfold stat. by destruct (check_if_exists && found). }
  assert (Htry : exists st',
    tiktok_try url check_if_exists st
      = (Ok (Result (tiktok_result stat info r_thumbs h s u)), st')
    /\ trace st' = trace st ++ tiktok_trace check_if_exists found key filename r_remove u).
  { unfold tiktok_try.
    destruct (quiet_ends Inv _ _ st Hinfo Hinv) as (st1 & R1 & I1 & T1).
    erewrite bind_ok by exact R1.
    destruct (quiet_ends Inv _ _ st1 Hkey I1) as (st2 & R2 & I2 & T2).
    erewrite bind_ok by exact R2. fold filename.
    assert (Hst : exists st3,
      (if check_if_exists
       then fnd <- exists_ key;; ret (if (fnd : bool) then "already archived" else "success")
       else ret "success") st2 = (Ok stat, st3)
      /\ Inv (world st3)
      /\ trace st3 = trace st ++ (if check_if_exists then [EvExists key (Ok found)] else [])).
    { unfold stat. destruct check_if_exists.
      - destruct (logged_ends Inv (EvExists key) _ _ st2 Hex I2) as (st3 & R3 & I3 & T3).
        exists st3. erewrite bind_ok by exact R3. split; [done|]. split; [done|].
        rewrite T3. congruence.
      - exists st2. split; [done|]. split; [done|]. rewrite app_nil_r. congruence. }
    destruct Hst as (st3 & R3 & I3 & T3). erewrite bind_ok by exact R3.
    destruct (quiet_ends Inv _ _ st3 Hmedia I3) as (st4 & R4 & I4 & T4).
    erewrite bind_ok by exact R4.
    change (Z.of_nat (length (m0 :: ms)) <=? 0) with false. cbv iota.
    destruct (logged_ends Inv (EvFetch filename) _ _ st4 Hfetch I4) as (st5 & R5 & I5 & T5).
    erewrite bind_ok by exact R5. rewrite Hstat.
    assert (Hu : exists st6,
      (if negb (check_if_exists && found) then upload filename key else ret tt) st5
        = (Ok tt, st6)
      /\ Inv (world st6)
      /\ trace st6 = trace st5
           ++ (if check_if_exists && found then [] else [EvUpload filename key (Ok tt)])).
    { destruct (check_if_exists && found) eqn:E; cbn [negb].
      - exists st5. by rewrite app_nil_r.
      - destruct (logged_ends Inv (EvUpload filename key) _ _ st5 (Hup eq_refl) I5)
          as (st6 & R6 & I6 & T6).
        by exists st6. }
    destruct Hu as (st6 & R6 & I6 & T6). erewrite bind_ok by exact R6.
    destruct (tiktok_thumbnails_ends Inv info filename key r_thumbs st6 Hth Hthe I6)
      as (st7 & R7 & I7 & T7).
    erewrite bind_ok by exact R7.
    destruct (quiet_ends Inv _ _ st7 Hhash I7) as (st8 & R8 & I8 & T8).
    erewrite bind_ok by exact R8.
    destruct (quiet_ends Inv _ _ st8 Hshot I8) as (st9 & R9 & I9 & T9).
    erewrite bind_ok by exact R9.
    destruct (logged_ends Inv (EvRemove filename) _ _ st9 Hrm I9) as (st10 & R10 & I10 & T10).
    assert (R10' : try_except (remove filename)
              (fun e => match e with FileNotFoundError => true | _ => false end)
              (fun _ => ret tt) st9 = (Ok tt, st10)).
    { unfold try_except, remove. rewrite R10. by destruct Hrmok as [->| ->]. }
    erewrite bind_ok by exact R10'.
    destruct (logged_ends Inv (EvCdnUrl key) _ _ st10 Hcdn I10) as (st11 & R11 & I11 & T11).
    erewrite bind_ok by exact R11.
    exists st11. split; [reflexivity|].
    rewrite T11, T10, T9, T8, T7, T6, T5, T4, T3. unfold tiktok_trace.
    by rewrite <- !app_assoc. }
  destruct Htry as (st' & Hrun & Ht).
  exists st'. unfold try_except. rewrite Hrun. done.
Qed.

Lemma tiktok_thumbnails_run info filename key r_thumbs (st : St) w' :
  match ti_duration info with
  | Some d => get_thumbnails filename key (Some d) (world st) = (r_thumbs, w')
              /\ (forall e, r_thumbs = Raise e -> is_Exception e = true)
  | None => w' = world st
  end ->
  tiktok_thumbnails info filename key st
  = (Ok (tiktok_thumbs_value info r_thumbs), mkA w' (trace st)).
Proof.
  unfold tiktok_thumbnails, try_except, tiktok_thumbs_value.
  destruct (ti_duration info) as [d|].
  - intros [Hrun He]. rewrite (quiet_run _ _ _ _ Hrun).
    destruct r_thumbs as [t|e]; [done|]. by rewrite (He e eq_refl).
  - intros ->. by destruct st.
Qed.

Lemma tiktok_remove_run filename r_remove (st : St) w' :
  os_remove filename (world st) = (r_remove, w') ->
  r_remove = Ok tt \/ r_remove = Raise FileNotFoundError ->
  try_except (remove filename)
    (fun e => match e with FileNotFoundError => true | _ => false end)
    (fun _ => ret tt) st
  = (Ok tt, mkA w' (trace st ++ [EvRemove filename r_remove])).
Proof.
  intros Hrun Hr. unfold try_except, remove. rewrite (logged_run _ _ _ _ _ Hrun).
  by destruct Hr as [-> | ->].
Qed.

Lemma tiktok_path_run url check_if_exists found info key r_thumbs h s r_remove u
    (st : St) w' :
  tiktok_path url check_if_exists found info key r_thumbs h s r_remove u (world st) w' ->
  tiktok_download url check_if_exists st
  = (Ok (Result (tiktok_result
                   (if check_if_exists && found then "already archived" else "success")
                   info r_thumbs h s u)),
     mkA w' (trace st ++ tiktok_trace check_if_exists found key
                           (path_join TMP_FOLDER key) r_remove u)).
Proof.
  intros (w1 & w2 & w3 & m0 & ms & w4 & w5 & w6 & w7 & w8 & w9 & w10 & Hurl & Hinfo
          & Hkey & Hex & Hmedia & Hfetch & Hup & Hth & Hhash & Hshot & Hrm & Hrmok & Hcdn).
  unfold tiktok_download. rewrite Hurl. cbn [negb]. unfold try_except, tiktok_try.
  do 2 step.
  destruct check_if_exists, found; cbn [andb] in *; subst.
  all: unfold exists_, upload, get_cdn_url.
  all: repeat step.
  all: change (Z.of_nat (length (m0 :: ms)) <=? 0) with false; cbv iota.
  all: repeat step.
  all: cbn [String.eqb Ascii.eqb Bool.eqb negb].
  all: repeat step.
  all: erewrite bind_ok by (apply tiktok_thumbnails_run; exact Hth).
  all: repeat step.
  all: erewrite bind_ok by (by apply tiktok_remove_run).
  all: repeat step.
  all: unfold ret, tiktok_trace, tiktok_result; cbn [andb].
  all: by rewrite <- ?app_assoc.
Qed.

Lemma youtubedl_timestamp_run (info : ytinfo) (st : St) w' :
  match yi_timestamp info with
  | Some ts => exists t, utc_isoformat ts (world st) = (Ok t, w')
  | None =>
      match yi_upload_date info with
      | Some d => exists t, strptime_utc d (world st) = (Ok t, w')
      | None => w' = world st
      end
  end ->
  exists ts, youtubedl_timestamp info st = (Ok ts, mkA w' (trace st)).
Proof.
  unfold youtubedl_timestamp. destruct (yi_timestamp info) as [ts|].
  - intros [t Ht]. step. by eexists.
  - destruct (yi_upload_date info) as [d|].
    + intros [t Ht]. step. by eexists.
    + intros ->. destruct st. by eexists.
Qed.

Lemma youtubedl_archived_run fb_cookie url info1 info2 key u filename (st : St) w' :
  youtubedl_archived_path fb_cookie url info1 info2 key u filename (world st) w' ->
  exists r,
    youtubedl_download fb_cookie url true st
    = (Ok (Result r),
       mkA w' (trace st ++ [EvExtract url false (Ok info1); EvExists key (Ok true);
                            EvCdnUrl key (Ok u); EvExtract url true (Ok info2);
                            EvRemove filename (Ok tt)]))
    /\ status r = "already archived"
    /\ cdn_url r = Some u.
Proof.
  intros (netloc & w1 & w2 & w3 & v1 & name1 & w4 & w5 & w6 & w7 & w8 & v2 & name2 & w9
          & there & w10 & h & w11 & s & w12 & r_thumbs & w13 & w14 & Hnetloc & Hcookie
          & Hprobe & Hlive & Htw & Hs1 & Hname1 & Hkey & Hex & Hcdn & Hdl & Hs2 & Hname2
          & Hthere & -> & Hhash & Hshot & Hth & Hrm & Hts).
  unfold youtubedl_download. step.
  assert (Hck :
    (if (bool_decide (netloc = "facebook.com") || bool_decide (netloc = "www.facebook.com"))
        && truthy fb_cookie
     then quiet (set_cookie_header (default "" fb_cookie)) else ret tt) (mkA w1 (trace st))
    = (Ok tt, mkA w2 (trace st))).
  { destruct ((bool_decide _ || bool_decide _) && truthy fb_cookie).
    - exact (quiet_run _ (mkA w1 (trace st)) _ _ Hcookie).
    - by subst w2. }
  erewrite bind_ok by exact Hck.
  assert (Hpr : youtubedl_probe url (mkA w2 (trace st))
                = (Ok (Some info1), mkA w3 (trace st ++ [EvExtract url false (Ok info1)]))).
  { unfold youtubedl_probe, try_except, extract. by step. }
  erewrite bind_ok by exact Hpr. cbv beta iota.
  unfold youtubedl_archive. rewrite Hlive.
  assert (Hlinked :
    (if contains "twitter.com" netloc
     then match yi_webpage_url info1 with
          | Some u => ret (negb (contains "https://twitter.com/" u))
          | None => raise (KeyError "webpage_url")
          end
     else ret false) (mkA w3 (trace st ++ [EvExtract url false (Ok info1)]))
    = (Ok false, mkA w3 (trace st ++ [EvExtract url false (Ok info1)]))).
  { unfold twitter_direct in Htw.
    destruct (contains "twitter.com" netloc); [|done].
    destruct (yi_webpage_url info1) as [w|]; [|done]. by rewrite Htw. }
  erewrite bind_ok by exact Hlinked. cbv iota.
  assert (Hchk : youtubedl_check info1 (mkA w3 (trace st ++ [EvExtract url false (Ok info1)]))
    = (Ok (inr (key, "already archived", Some u)),
       mkA w7 (trace st ++ [EvExtract url false (Ok info1); EvExists key (Ok true);
                            EvCdnUrl key (Ok u)]))).
  { unfold youtubedl_check, exists_, get_cdn_url. unfold single in Hs1.
    destruct (yi_entries info1) as [[|e [|e' l]]|]; try done; injection Hs1 as ->;
      cbn [length];
      try (change (1 <? Z.of_nat 1) with false; change (Z.of_nat 1 =? 0) with false);
      cbv iota; repeat step; unfold ret; by rewrite <- ?app_assoc. }
  erewrite bind_ok by exact Hchk. cbv iota beta.
  unfold extract at 1. step.
  destruct (youtubedl_timestamp_run v2
              (mkA w14 (trace st ++ [EvExtract url false (Ok info1); EvExists key (Ok true);
                                     EvCdnUrl key (Ok u); EvExtract url true (Ok info2);
                                     EvRemove (scratch_name there name2) (Ok tt)])) w' Hts)
    as [ts Hts'].
  assert (Hfin : exists r,
    youtubedl_finish url v2 (Some key) "already archived" (Some u)
      (mkA w8 ((trace st ++ [EvExtract url false (Ok info1); EvExists key (Ok true);
                             EvCdnUrl key (Ok u)]) ++ [EvExtract url true (Ok info2)]))
    = (Ok (Result r),
       mkA w' (trace st ++ [EvExtract url false (Ok info1); EvExists key (Ok true);
                            EvCdnUrl key (Ok u); EvExtract url true (Ok info2);
                            EvRemove (scratch_name there name2) (Ok tt)]))
    /\ status r = "already archived" /\ cdn_url r = Some u).
  { unfold youtubedl_finish. do 2 step. fold (scratch_name there name2).
    cbn [String.eqb Ascii.eqb Bool.eqb negb]. step. cbn [fst snd]. do 2 step.
    assert (Hthumbs : exists t,
      try_except (quiet (get_thumbnails (scratch_name there name2) key (yi_duration v2)))
        (fun _ => true) (fun _ => ret ("", "Could not generate thumbnails"))
        (mkA w12 ((trace st ++ [EvExtract url false (Ok info1); EvExists key (Ok true);
                                EvCdnUrl key (Ok u)]) ++ [EvExtract url true (Ok info2)]))
      = (Ok t, mkA w13 ((trace st ++ [EvExtract url false (Ok info1);
                                       EvExists key (Ok true); EvCdnUrl key (Ok u)])
                         ++ [EvExtract url true (Ok info2)]))).
    { unfold try_except. erewrite quiet_run by exact Hth. destruct r_thumbs; by eexists. }
    destruct Hthumbs as [t Hthumbs]. erewrite bind_ok by exact Hthumbs.
    unfold remove. step.
    rewrite <- !app_assoc. cbn [app].
    erewrite bind_ok by exact Hts'. by eexists. }
  destruct Hfin as (r & Hfin & Hst & Hcu). exists r. split; [|done].
  unfold single in Hs2.
  destruct (yi_entries info2) as [[|e [|e' l]]|]; try done; injection Hs2 as ->;
    cbn [length]; try change (1 <? Z.of_nat 1) with false; cbv iota; exact Hfin.
Qed.

(** C7, as the code has it: with [check_if_exists] set and the key
    already in the storage, an attempt whose other collaborators answer
    returns the status "already archived" with the [cdn_url] the storage
    gave for the key; the calls it made on the storage and on the scratch
    file are the existence test, the reading of the URL, the download and
    the removal of the scratch file, and no upload; the scratch file is
    absent from the world [download] leaves.  First the TikTok archiver,
    then the yt-dlp one. *)
Theorem already_archived_skips_upload (present : string -> W -> bool) :
  scratch_folder present ->
  (forall url info key r_thumbs h s r_remove u (st : St) w',
     tiktok_path url true true info key r_thumbs h s r_remove u (world st) w' ->
     let filename := path_join TMP_FOLDER key in
     let new := [EvExists key (Ok true); EvFetch filename (Ok tt);
                 EvRemove filename r_remove; EvCdnUrl key (Ok u)] in
     exists r,
       tiktok_download url true st = (Ok (Result r), mkA w' (trace st ++ new))
       /\ status r = "already archived"
       /\ cdn_url r = Some u
       /\ filter (fun e => is_upload e = true) new = []
       /\ present filename w' = false)
  /\ (forall fb_cookie url info1 info2 key u filename (st : St) w',
       youtubedl_archived_path fb_cookie url info1 info2 key u filename (world st) w' ->
       let new := [EvExtract url false (Ok info1); EvExists key (Ok true);
                   EvCdnUrl key (Ok u); EvExtract url true (Ok info2);
                   EvRemove filename (Ok tt)] in
       exists r,
         youtubedl_download fb_cookie url true st = (Ok (Result r), mkA w' (trace st ++ new))
         /\ status r = "already archived"
         /\ cdn_url r = Some u
         /\ filter (fun e => is_upload e = true) new = []
         /\ present filename w' = false).
Proof.
  intros Hsf. split.
  - intros url info key r_thumbs h s r_remove u st w' Hp filename new.
    eexists. split; [exact (tiktok_path_run _ _ _ _ _ _ _ _ _ _ _ _ Hp)|].
    split; [done|]. split; [done|]. split; [done|].
    destruct Hp as (w1 & w2 & w3 & m0 & ms & w4 & w5 & w6 & w7 & w8 & w9 & w10 & _ & _
                    & _ & _ & _ & _ & _ & _ & _ & _ & Hrm & Hrmok & Hcdn).
    rewrite (sf_cdn_url _ Hsf _ _ _ _ _ Hcdn). exact (sf_remove _ Hsf _ _ _ _ Hrm Hrmok).
  - intros fb_cookie url info1 info2 key u filename st w' Hp new.
    destruct (youtubedl_archived_run _ _ _ _ _ _ _ _ _ Hp) as (r & Hrun & Hs & Hc).
    exists r. split; [exact Hrun|]. split; [done|]. split; [done|]. split; [done|].
    destruct Hp as (netloc & w1 & w2 & w3 & v1 & name1 & w4 & w5 & w6 & w7 & w8 & v2
                    & name2 & w9 & there & w10 & h & w11 & s & w12 & r_thumbs & w13 & w14
                    & _ & _ & _ & _ & _ & _ & _ & _ & _ & _ & _ & _ & _ & _ & -> & _ & _ & _
                    & Hrm & Hts).
    assert (Hgone : present (scratch_name there name2) w14 = false)
      by (apply (sf_remove _ Hsf _ _ _ _ Hrm); by left).
    destruct (yi_timestamp v2) as [ts|].
    + destruct Hts as [t Ht]. by rewrite (sf_isoformat _ Hsf _ _ _ _ _ Ht).
    + destruct (yi_upload_date v2) as [d|].
      * destruct Hts as [t Ht]. by rewrite (sf_strptime _ Hsf _ _ _ _ _ Ht).
      * by subst w'.
Qed.

Section Scratch.
Variable present : string -> W -> bool.
Hypothesis Hsf : scratch_folder present.





End Scratch.


End ArchiverFacts.

(** ** The reference drive and the scripted world satisfy the assumptions *)

Section Instances.
Import GD MemDrive Site Arch Script Disk.



Lemma empty_always_missing q secs :
  0 <= secs -> always_missing (fun d => d = empty_drive) q secs.
Proof.
  intros Hs. split; intros d ->.
  - by eexists.
  - exists empty_drive. split; [|done]. unfold time_sleep; cbn. unfold mem_sleep.
    by assert ((secs <? 0) = false) as -> by lia.
Qed.

Lemma scripted_ends {A} (w : script) (f : script -> outcome A * script) r :
  f w = (r, w) -> ends (fun w' => w' = w) f r.
Proof. intros Hf w' ->. by exists w. Qed.

Lemma scripted_tiktok (w : script) url check_if_exists found info m0 ms r_thumbs h s
    r_remove u :
  contains "tiktok.com" url = true ->
  sc_info_post w = Ok info -> sc_exists w = Ok found ->
  sc_media w = Ok (m0 :: ms) -> sc_fetch w = Ok tt ->
  (check_if_exists && found = false -> sc_upload w = Ok tt) ->
  sc_thumbs w = r_thumbs -> (forall e, r_thumbs = Raise e -> is_Exception e = true) ->
  sc_hash w = Ok h -> sc_screenshot w = Ok s ->
  sc_remove w = r_remove -> (r_remove = Ok tt \/ r_remove = Raise FileNotFoundError) ->
  sc_cdn w = Ok u ->
  tiktok_pipeline (fun w' => w' = w) url check_if_exists found info
    (script_key (ti_id info +:+ ".mp4")) r_thumbs h s r_remove u.
Proof.
  intros Hurl Hi He Hm Hf Hup Ht Hte Hh Hs Hr Hrok Hc.
  split; try done; try (apply scripted_ends; cbn; congruence).
  - exists m0, ms. split; apply scripted_ends; cbn; congruence.
  - intros Hc'. apply scripted_ends; cbn. by rewrite Hup.
  - intros d. apply scripted_ends; cbn; congruence.
Qed.


Lemma holds_removed f l :
  existsb (String.eqb f) (List.filter (fun g => negb (String.eqb f g)) l) = false.
Proof.
  induction l as [|g l IH]; [done|]. cbn [List.filter].
  destruct (String.eqb f g) eqn:E; cbn [negb]; [done|].
  cbn [existsb]. by rewrite E, IH.
Qed.

(** The world with a scratch folder is one the statements about the
    scratch file apply to. *)
Lemma disk_scratch_folder : scratch_folder Disk.holds.
Proof.
  split.
  - intros f w r w'. cbn. unfold Disk.disk_remove.
    destruct (Disk.holds f w) eqn:E.
    + intros [= <- <-] _. apply holds_removed.
    + by intros [= <- <-] _.
  - intros m f w w'. cbn. unfold Disk.disk_fetch.
    destruct (sc_fetch (Disk.answers w)); [|done].
    intros [= <-]. unfold Disk.holds. cbn [Disk.scratch existsb]. by rewrite String.eqb_refl.
  - by intros g f k w r w' [= _ <-].
  - by intros g k w r w' [= _ <-].
  - by intros g f k d w r w' [= _ <-].
  - by intros g f w r w' [= _ <-].
  - by intros g u w r w' [= _ <-].
  - by intros g ts w r w' [= _ <-].
  - by intros g d w r w' [= _ <-].
Qed.

End Instances.

(** ** The statements at concrete inputs *)

Section Runs.
Import GD MemDrive Site Arch Script Disk.

(** Three attempts on an empty drive: three listings, two sleeps of ten
    seconds between them, then the error. *)
Lemma read_path_exact_attempts_witness :
  exists msg st' new,
    _get_id_from_parent_and_name (Some "root") "a" 3 10 true true true
      (fresh "root" "default" empty_drive) = (Raise (ValueError msg), st')
    /\ calls st' = calls (fresh "root" "default" empty_drive) ++ new
    /\ new = miss_log (query_string (Some "root") "a" true) 10 (Z.to_nat 3)
    /\ Z.of_nat (length (filter (fun e => is_list e = true) new)) = 3
    /\ Z.of_nat (length (filter (fun e => is_sleep e = true) new)) = 3 - 1
    /\ last new = Some (EList (query_string (Some "root") "a" true) (Ok [])).
Proof.
  apply (read_path_exact_attempts (fun d => d = empty_drive)).
  - lia.
  - intros _. reflexivity.
  - apply empty_always_missing. lia.
  - reflexivity.
Defined.

(** Three attempts allowed, a listing that lags once: one empty listing,
    one sleep, the listing that shows the folder; then the cache. *)
Lemma second_resolution_from_cache_witness :
  let st := at_site 1 one_folder "root" "default" in
  let st1 := snd (_get_id_from_parent_and_name (Some "root") "a" 3 10 true true true st) in
  let q := query_string (Some "root") "a" true in
  exists k items,
    Z.of_nat k < 3
    /\ calls st1 = calls st ++ retry_log q 10 k ++ [EList q (Ok items)]
    /\ item_id <$> last items = Some "id0"
    /\ (3 = default_retries -> calls st1 = calls st ++ [EList q (Ok items)])
    /\ forall retries2 secs2 raise2,
         _get_id_from_parent_and_name (Some "root") "a" retries2 secs2 true raise2 true st1
         = (Ok (Some "id0"), st1).
Proof.
  intros st st1.
  apply (second_resolution_from_cache (Some "root") "a" 3 10 true true st st1 "id0").
  - reflexivity.
  - vm_compute. reflexivity.
Defined.

(** C4 as stated fails: with two attempts and a listing that lags once,
    the first resolution returns the id after two list queries, so the
    two resolutions together made two. *)
Lemma retried_resolution_lists_twice :
  let st := at_site 1 one_folder "root" "default" in
  ~ (forall id st1 r2 st2,
       _get_id_from_parent_and_name (Some "root") "a" 2 10 true true true st
         = (Ok (Some id), st1) ->
       _get_id_from_parent_and_name (Some "root") "a" 2 10 true true true st1
         = (r2, st2) ->
       r2 = Ok (Some id)
       /\ length (filter (fun e => is_list e = true) (calls st2)) = 1%nat).
Proof.
  intros st Hclaim.
  pose (st1 := snd (_get_id_from_parent_and_name (Some "root") "a" 2 10 true true true st)).
  destruct (Hclaim "id0" st1 (Ok (Some "id0")) st1) as [_ Hone].
  - vm_compute. reflexivity.
  - vm_compute. reflexivity.
  - vm_compute in Hone. discriminate.
Qed.

Lemma resolution_takes_last_witness :
  exists st1,
    _get_id_from_parent_and_name (Some "root") "a" 1 10 true true true
      (fresh "root" "default" two_folders) = (Ok (Some "id1"), st1).
Proof.
  destruct (resolution_takes_last (Some "root") "a" 1 10 true true true
              (fresh "root" "default" two_folders) [Item "id0" "a"] (Item "id1" "a")
              two_folders) as (st1 & Hrun & _).
  - lia.
  - intros _. reflexivity.
  - reflexivity.
  - exists st1. exact Hrun.
Defined.

(** After [a/f.mp4] was uploaded, the key [a/g.mp4] meets its two folders
    and then a listing without entry. *)
Lemma get_cdn_url_raises_not_found_witness :
  exists msg st',
    GD.get_cdn_url "a/g.mp4" uploaded = (Raise (ValueError msg), st')
    /\ GD.exists_ "a/g.mp4" uploaded = (Ok false, st').
Proof.
  apply (get_cdn_url_raises_not_found uploaded "a/g.mp4").
  vm_compute. reflexivity.
Defined.

(** A transport failure and an absent key give the same answer. *)
Lemma exists_swallows_every_exception_witness :
  GD.exists_ "a/f.mp4" (fresh "root" "default" unplugged)
  = (Ok false, snd (GD.get_cdn_url "a/f.mp4" (fresh "root" "default" unplugged)))
  /\ fst (GD.exists_ "a/f.mp4" (fresh "root" "default" empty_drive)) = Ok false.
Proof.
  split.
  - apply (proj2 (exists_swallows_every_exception
                    (fresh "root" "default" unplugged) "a/f.mp4") offline).
    vm_compute. reflexivity.
  - vm_compute. reflexivity.
Defined.

(** C3 as stated fails: the folder [a] is created with id [id0] and the
    cache holds nothing under its key afterwards. *)
Lemma created_folder_is_not_cached :
  let st := fresh "root" "default" empty_drive in
  ~ (forall id st',
       uploadf_folder (Some "root") "a" st = (Ok (Some id), st') ->
       cache_of st' !! cache_key (Some "root") "a" true = Some id).
Proof.
  intros st Hclaim.
  specialize (Hclaim "id0" (snd (uploadf_folder (Some "root") "a" st))).
  assert (Hrun : uploadf_folder (Some "root") "a" st
                 = (Ok (Some "id0"), snd (uploadf_folder (Some "root") "a" st)))
    by (vm_compute; reflexivity).
  specialize (Hclaim Hrun). vm_compute in Hclaim. discriminate.
Qed.

Lemma write_path_creates_uncached_witness :
  let st := fresh "root" "default" empty_drive in
  exists st',
    uploadf_folder (Some "root") "a" st = (Ok (Some "id0"), st')
    /\ calls st' = calls st ++
         [EList (query_string (Some "root") "a" true) (Ok []);
          ECreate (Metadata ["a"] (Some folder_mime) [Some "root"]) None (Ok (Some "id0"))]
    /\ cache_of st' = cache_of st
    /\ service st' = mkDrive [DFile "id0" (Metadata ["a"] (Some folder_mime) [Some "root"])]
                       1 true
    /\ uploadf_folders ["a"; "b"] (Some "root") None st
       = uploadf_folders ["b"] (Some "id0") (Some "id0") st'.
Proof.
  intros st.
  apply (write_path_creates_uncached st (Some "root") "a" empty_drive (Some "id0")
           (mkDrive [DFile "id0" (Metadata ["a"] (Some folder_mime) [Some "root"])] 1 true)
           ["b"] None).
  - reflexivity.
  - reflexivity.
  - reflexivity.
Defined.



(** A TikTok attempt and a yt-dlp attempt on a world with a scratch
    folder, the key already in the storage: the file is written, read and
    removed, and the folder is empty again when [download] returns. *)
Lemma already_archived_skips_upload_witness :
  (exists r,
     tiktok_download tiktok_url true (boot all_fine)
     = (Ok (Result r),
        mkA (mkDisk all_fine [])
          (trace (boot all_fine)
           ++ [EvExists "arch_7001.mp4" (Ok true); EvFetch "tmp/arch_7001.mp4" (Ok tt);
               EvRemove "tmp/arch_7001.mp4" (Ok tt);
               EvCdnUrl "arch_7001.mp4" (Ok "https://cdn/arch_1")]))
     /\ status r = "already archived"
     /\ cdn_url r = Some "https://cdn/arch_1"
     /\ filter (fun e => is_upload e = true)
          [EvExists "arch_7001.mp4" (Ok true); EvFetch "tmp/arch_7001.mp4" (Ok tt);
           EvRemove "tmp/arch_7001.mp4" (Ok tt);
           EvCdnUrl "arch_7001.mp4" (Ok "https://cdn/arch_1")] = []
     /\ holds "tmp/arch_7001.mp4" (mkDisk all_fine []) = false)
  /\ (exists r,
        youtubedl_download None video_url true (boot all_fine)
        = (Ok (Result r),
           mkA (mkDisk all_fine [])
             (trace (boot all_fine)
              ++ [EvExtract video_url false (Ok video);
                  EvExists "arch_tmp/clip.mp4" (Ok true);
                  EvCdnUrl "arch_tmp/clip.mp4" (Ok "https://cdn/arch_1");
                  EvExtract video_url true (Ok video);
                  EvRemove "tmp/clip.mp4" (Ok tt)]))
        /\ status r = "already archived"
        /\ cdn_url r = Some "https://cdn/arch_1"
        /\ filter (fun e => is_upload e = true)
             [EvExtract video_url false (Ok video);
              EvExists "arch_tmp/clip.mp4" (Ok true);
              EvCdnUrl "arch_tmp/clip.mp4" (Ok "https://cdn/arch_1");
              EvExtract video_url true (Ok video);
              EvRemove "tmp/clip.mp4" (Ok tt)] = []
        /\ holds "tmp/clip.mp4" (mkDisk all_fine []) = false).
Proof.
  split.
  - apply (proj1 (already_archived_skips_upload holds disk_scratch_folder) tiktok_url post
             "arch_7001.mp4" (Ok ("thumb.jpg", "index.html")) "abc123"
             "https://shots/1.png" (Ok tt) "https://cdn/arch_1" (boot all_fine)
             (mkDisk all_fine [])).
    unfold tiktok_path. do 12 eexists.
    split_and!;
      first [reflexivity | split; [reflexivity | discriminate] | by left].
  - apply (proj2 (already_archived_skips_upload holds disk_scratch_folder) None video_url
             video video "arch_tmp/clip.mp4" "https://cdn/arch_1" "tmp/clip.mp4"
             (boot all_fine) (mkDisk all_fine [])).
    unfold youtubedl_archived_path. do 23 eexists.
    split_and!; first [reflexivity | by eexists].
Defined.

(** C7 as stated fails: the key is in the storage and the video is
    fetched, but the hasher raises; [TiktokArchiver.download] returns its
    error status, and the scratch file is still there. *)
Lemma hash_failure_hides_already_archived :
  let st := boot (hash_fails (RemoteError "io") all_fine) in
  ~ (forall r st',
       tiktok_download tiktok_url true st = (Ok (Result r), st') ->
       status r = "already archived"
       /\ holds "tmp/arch_7001.mp4" (world st') = false).
Proof.
  intros st Hclaim.
  destruct (Hclaim (status_only ("Other Tiktok error: " +:+ "io"))
              (snd (tiktok_download tiktok_url true st))) as [Hs _].
  - vm_compute. reflexivity.
  - vm_compute in Hs. discriminate.
Qed.



(** C1 fails on [YoutubeDLArchiver.download]: the exception of a failed
    [storage.upload] leaves [download] as it was raised. *)
Theorem youtubedl_upload_error_escapes :
  fst (youtubedl_download None video_url false
         (start (upload_fails (RemoteError "reset") all_fine)))
  = Raise (RemoteError "reset").
Proof. vm_compute. reflexivity. Qed.

End Runs.

(** ** More about the storage backend: what the paths do and never do *)

Section StorageMore.
Import GD.
Context {R : Type} `{Drive R}.

Local Abbreviation St := (GDStorage R).

(** A resolution with the single default attempt: no sleep, one listing
    at most. *)
Lemma get_id_default_log parent_id name secs mime raise_on_missing (st : St) r st' :
  _get_id_from_parent_and_name parent_id name default_retries secs mime
    raise_on_missing true st = (r, st') ->
  exists new, calls st' = calls st ++ new
    /\ (new = [] \/ exists res, new = [EList (query_string parent_id name mime) res]).
Proof.
  unfold _get_id_from_parent_and_name. intros Hrun.
  erewrite bind_ok in Hrun by reflexivity.
  destruct (cache_of st !! cache_key parent_id name mime) as [cached|].
  - injection Hrun as <- <-. exists []. cbn. rewrite app_nil_r. by split; [|left].
  - change (range default_retries) with [0] in Hrun. cbn [attempts] in Hrun.
    unfold bind at 1 2 in Hrun. unfold call_list in Hrun. cbn [service set_cache] in Hrun.
    destruct (files_list _ _) as [[items|e] rem].
    + destruct (0 <? Z.of_nat (length items)).
      * destruct (last items) as [it|].
        -- unfold bind, ret in Hrun. cbn in Hrun. injection Hrun as <- <-.
           eexists. split; [reflexivity|]. right. by eexists.
        -- cbn in Hrun. injection Hrun as <- <-.
           eexists. split; [reflexivity|]. right. by eexists.
      * change (0 <? default_retries - 1) with false in Hrun.
        unfold bind, ret in Hrun. cbn in Hrun.
        destruct raise_on_missing; injection Hrun as <- <-;
          (eexists; split; [reflexivity|]; right; by eexists).
    + cbn in Hrun. injection Hrun as <- <-.
      eexists. split; [reflexivity|]. right. by eexists.
Qed.

Lemma get_cdn_url_folders_log folders :
  forall parent_id folder_id (st : St) r st',
    get_cdn_url_folders folders parent_id folder_id st = (r, st') ->
    folder st' = folder st /\ root_folder_id st' = root_folder_id st
    /\ (exists new, calls st' = calls st ++ new
          /\ Forall (fun e => is_list e = true) new
          /\ (length new <= length folders)%nat)
    /\ cache_of st ⊆ cache_of st'.
Proof.
  induction folders as [|f rest IH]; intros parent_id folder_id st r st' Hrun.
  - injection Hrun as <- <-. split_and!; try done.
    exists []. by rewrite app_nil_r.
  - cbn [get_cdn_url_folders] in Hrun. unfold bind at 1 in Hrun.
    destruct (_get_id_from_parent_and_name _ _ _ _ _ _ _ st) as [[id|e] st1] eqn:Hg.
    + destruct (get_id_log _ _ _ _ _ _ _ _ _ _ Hg) as (Hf & Hr & _ & Hsub & _).
      destruct (get_id_default_log _ _ _ _ _ _ _ _ Hg) as (n1 & Hc1 & Hn1).
      apply IH in Hrun. destruct Hrun as (Hf2 & Hr2 & (n2 & Hc2 & Hl2 & Hlen2) & Hsub2).
      split_and!; try congruence; [|by etrans].
      exists (n1 ++ n2). split; [rewrite Hc2, Hc1; by rewrite app_assoc|].
      split.
      * apply Forall_app. split; [|done].
        destruct Hn1 as [->|[res ->]]; by repeat constructor.
      * rewrite length_app. cbn [length].
        destruct Hn1 as [->|[res ->]]; cbn [length]; lia.
    + injection Hrun as <- <-.
      destruct (get_id_log _ _ _ _ _ _ _ _ _ _ Hg) as (Hf & Hr & _ & Hsub & _).
      destruct (get_id_default_log _ _ _ _ _ _ _ _ Hg) as (n1 & Hc1 & Hn1).
      split_and!; try done.
      exists n1. split; [done|]. split.
      * destruct Hn1 as [->|[res ->]]; by repeat constructor.
      * cbn [length]. destruct Hn1 as [->|[res ->]]; cbn [length]; lia.
Qed.

Lemma str_split_nonempty c s : str_split c s <> [].
Proof.
  destruct s as [|a s]; [done|]. cbn [str_split].
  destruct (Ascii.eqb a c); [done|]. by destruct (str_split c s).
Qed.

Lemma length_py_init (l : list string) :
  l <> [] -> S (length (py_init l)) = length l.
Proof.
  unfold py_init. induction l as [|a [|b l] IH]; [done|done|].
  intros _. cbn [removelast length] in *. rewrite IH; done.
Qed.

Lemma get_cdn_url_log (st : St) key r st' :
  GD.get_cdn_url key st = (r, st') ->
  folder st' = folder st /\ root_folder_id st' = root_folder_id st
  /\ (exists new, calls st' = calls st ++ new
        /\ Forall (fun e => is_list e = true) new
        /\ (length new <= length (str_split sep (path_join (folder st) key)))%nat)
  /\ cache_of st ⊆ cache_of st'.
Proof.
  unfold GD.get_cdn_url. intros Hrun.
  set (parts := str_split sep (path_join (folder st) key)) in *.
  assert (Hlen : S (length (py_init parts)) = length parts)
    by apply length_py_init, str_split_nonempty.
  unfold bind at 1 in Hrun.
  destruct (get_cdn_url_folders _ _ _ st) as [[ids|e] st1] eqn:Hfold.
  - apply get_cdn_url_folders_log in Hfold.
    destruct Hfold as (Hf & Hr & (n1 & Hc1 & Hl1 & Hlen1) & Hsub1).
    unfold bind at 1 in Hrun.
    destruct (_get_id_from_parent_and_name _ _ _ _ _ _ _ st1) as [[id|e] st2] eqn:Hg;
      injection Hrun as <- <-;
      destruct (get_id_log _ _ _ _ _ _ _ _ _ _ Hg) as (Hf2 & Hr2 & _ & Hsub2 & _);
      destruct (get_id_default_log _ _ _ _ _ _ _ _ Hg) as (n2 & Hc2 & Hn2);
      (split_and!; try congruence; [|by etrans]);
      (exists (n1 ++ n2); split; [rewrite Hc2, Hc1; by rewrite app_assoc|]; split;
       [apply Forall_app; split; [done|];
        destruct Hn2 as [->|[res ->]]; by repeat constructor
       |rewrite length_app; destruct Hn2 as [->|[res ->]]; cbn [length]; lia]).
  - injection Hrun as <- <-. apply get_cdn_url_folders_log in Hfold.
    destruct Hfold as (Hf & Hr & (n1 & Hc1 & Hl1 & Hlen1) & Hsub1).
    split_and!; try done. exists n1. split; [done|]. split; [done|lia].
Qed.

(** X1: the read path never writes to the remote and never sleeps.  On
    any remote, answering or failing, [get_cdn_url] and [exists] make
    listing calls only, at most one per segment of the path, and the same
    ones. *)
Theorem read_path_only_lists (st : St) key :
  exists new,
    calls (snd (GD.get_cdn_url key st)) = calls st ++ new
    /\ calls (snd (GD.exists_ key st)) = calls st ++ new
    /\ Forall (fun e => is_list e = true) new
    /\ (length new <= length (str_split sep (path_join (folder st) key)))%nat.
Proof.
  destruct (GD.get_cdn_url key st) as [r st'] eqn:Hrun.
  destruct (get_cdn_url_log st key r st' Hrun) as (_ & _ & (new & Hc & Hl & Hlen) & _).
  exists new. rewrite exists_run, Hrun. done.
Qed.

Lemma mkdir_log name parent_id (st : St) r st' :
  _mkdir name parent_id st = (r, st') ->
  folder st' = folder st /\ root_folder_id st' = root_folder_id st
  /\ cache_of st' = cache_of st.
Proof.
  unfold _mkdir, call_create. destruct (files_create _ _ _) as [r0 rem].
  by intros [= <- <-].
Qed.

Lemma uploadf_folders_log folders :
  forall parent_id upload_to (st : St) r st',
    uploadf_folders folders parent_id upload_to st = (r, st') ->
    folder st' = folder st /\ root_folder_id st' = root_folder_id st
    /\ cache_of st ⊆ cache_of st'.
Proof.
  induction folders as [|f rest IH]; intros parent_id upload_to st r st' Hrun.
  - by injection Hrun as <- <-.
  - cbn [uploadf_folders] in Hrun. unfold bind at 1 in Hrun.
    assert (Hstep : forall r1 st1, uploadf_folder parent_id f st = (r1, st1) ->
      folder st1 = folder st /\ root_folder_id st1 = root_folder_id st
      /\ cache_of st ⊆ cache_of st1).
    { intros r1 st1. unfold uploadf_folder, bind.
      destruct (_get_id_from_parent_and_name _ _ _ _ _ _ _ st) as [[[id|]|e] st0] eqn:Hg;
        destruct (get_id_log _ _ _ _ _ _ _ _ _ _ Hg) as (Hf & Hr & _ & Hsub & _).
      - by intros [= <- <-].
      - intros Hm. apply mkdir_log in Hm. destruct Hm as (Hf2 & Hr2 & Hc2).
        split_and!; try congruence. by rewrite Hc2.
      - by intros [= <- <-]. }
    destruct (uploadf_folder parent_id f st) as [[id|e] st1] eqn:Hu.
    + destruct (Hstep _ _ eq_refl) as (Hf & Hr & Hsub).
      apply IH in Hrun. destruct Hrun as (Hf2 & Hr2 & Hsub2).
      split_and!; try congruence. by etrans.
    + injection Hrun as <- <-. by eapply Hstep.
Qed.

Lemma uploadf_log (st : St) file key r st' :
  uploadf file key st = (r, st') ->
  folder st' = folder st /\ root_folder_id st' = root_folder_id st
  /\ cache_of st ⊆ cache_of st'.
Proof.
  unfold uploadf. intros Hrun. unfold bind at 1 in Hrun.
  destruct (uploadf_folders _ _ _ st) as [[ids|e] st1] eqn:Hfold;
    apply uploadf_folders_log in Hfold; destruct Hfold as (Hf & Hr & Hsub).
  - unfold bind at 1, call_media in Hrun.
    destruct (media_file_upload _ _) as [[[]|e] rem0]; [|by injection Hrun as <- <-].
    unfold bind at 1, call_create in Hrun. cbn [service set_remote] in Hrun.
    destruct (files_create _ _ _) as [[[id|]|e] rem]; by injection Hrun as <- <-.
  - by injection Hrun as <- <-.
Qed.

(** X2: the resolution cache is append-only.  Whatever the remote
    answers, no resolution and none of [get_cdn_url], [exists] and
    [upload] removes an entry of the cache or changes the id it holds. *)
Theorem cache_only_grows (st : St) key file :
  cache_of st ⊆ cache_of (snd (GD.get_cdn_url key st))
  /\ cache_of st ⊆ cache_of (snd (GD.exists_ key st))
  /\ cache_of st ⊆ cache_of (snd (GD.upload file key st))
  /\ (forall parent_id name retries secs mime raise_on_missing use_cache,
        cache_of st ⊆ cache_of (snd (_get_id_from_parent_and_name parent_id name
                                       retries secs mime raise_on_missing use_cache st))).
Proof.
  split_and!.
  - destruct (GD.get_cdn_url key st) as [r st'] eqn:Hrun.
    by apply get_cdn_url_log in Hrun as (_ & _ & _ & Hsub).
  - rewrite exists_run. destruct (GD.get_cdn_url key st) as [r st'] eqn:Hrun.
    by apply get_cdn_url_log in Hrun as (_ & _ & _ & Hsub).
  - unfold GD.upload. destruct (uploadf file key st) as [r st'] eqn:Hrun.
    by apply uploadf_log in Hrun as (_ & _ & Hsub).
  - intros parent_id name retries secs mime raise_on_missing use_cache.
    destruct (_get_id_from_parent_and_name _ _ _ _ _ _ _ st) as [r st'] eqn:Hrun.
    by apply get_id_log in Hrun as (_ & _ & _ & Hsub & _).
Qed.

Lemma get_id_raising_not_none parent_id name retries secs mime use_cache (st : St) st' :
  _get_id_from_parent_and_name parent_id name retries secs mime true use_cache st
  <> (Ok None, st').
Proof.
  unfold _get_id_from_parent_and_name, bind.
  destruct use_cache.
  - destruct (cache_of st !! cache_key parent_id name mime); [done|].
    by destruct (attempts _ _ _ _ _ _ _) as [[[id|]|e] st1].
  - cbn. by destruct (attempts _ _ _ _ _ _ _) as [[[id|]|e] st1].
Qed.

(** Once a chain of folders has been resolved, any later state of the
    object whose cache holds at least as much resolves it again from the
    cache alone. *)
Lemma get_cdn_url_folders_replay folders :
  forall parent_id folder_id (st : St) ids st1,
    get_cdn_url_folders folders parent_id folder_id st = (Ok ids, st1) ->
    forall st2, cache_of st1 ⊆ cache_of st2 -> is_Some (api_cache st2) ->
      get_cdn_url_folders folders parent_id folder_id st2 = (Ok ids, st2)
      /\ uploadf_folders folders parent_id folder_id st2 = (Ok ids, st2).
Proof.
  induction folders as [|f rest IH]; intros parent_id folder_id st ids st1 Hrun st2 Hsub Hsome.
  - injection Hrun as <- <-. done.
  - cbn [get_cdn_url_folders] in Hrun. unfold bind at 1 in Hrun.
    destruct (_get_id_from_parent_and_name _ _ _ _ _ _ _ st) as [[[id|]|e] st0] eqn:Hg;
      [|by apply get_id_raising_not_none in Hg|done].
    destruct (get_id_log _ _ _ _ _ _ _ _ _ _ Hg) as (_ & _ & _ & _ & Hid).
    destruct (Hid id eq_refl eq_refl) as [Hkey _].
    assert (Hmono : cache_of st0 ⊆ cache_of st1).
    { by apply get_cdn_url_folders_log in Hrun as (_ & _ & _ & Hm). }
    assert (Hhit : cache_of st2 !! cache_key parent_id f true = Some id).
    { eapply lookup_weaken; [|exact Hsub]. eapply lookup_weaken; [exact Hkey|exact Hmono]. }
    destruct Hsome as [c Hc].
    destruct (IH _ _ _ _ _ Hrun st2 Hsub (ex_intro _ c Hc)) as [IH1 IH2].
    assert (Hget : forall raise_on_missing,
      _get_id_from_parent_and_name parent_id f default_retries default_sleep_seconds
        true raise_on_missing true st2 = (Ok (Some id), st2)).
    { intros raise_on_missing.
      rewrite (get_id_cache_hit _ _ _ _ _ _ _ id Hhit). by erewrite set_cache_id. }
    split.
    + cbn [get_cdn_url_folders]. by erewrite bind_ok by apply Hget.
    + cbn [uploadf_folders].
      assert (Hup : uploadf_folder parent_id f st2 = (Ok (Some id), st2)).
      { unfold uploadf_folder. by erewrite bind_ok by apply Hget. }
      by erewrite bind_ok by exact Hup.
Qed.

Lemma get_cdn_url_replay (st : St) key url st1 :
  GD.get_cdn_url key st = (Ok url, st1) ->
  GD.get_cdn_url key st1 = (Ok url, st1)
  /\ exists ids id,
       uploadf_folders (py_init (str_split sep (path_join (folder st1) key)))
         (Some (root_folder_id st1)) None st1 = (Ok ids, st1)
       /\ cache_of st1
            !! cache_key (snd ids) (py_last (str_split sep (path_join (folder st1) key)))
                 false = Some id
       /\ url = view_url (Some id).
Proof.
  intros Hrun.
  destruct (get_cdn_url_log _ _ _ _ Hrun) as (Hf & Hr & _ & _).
  unfold GD.get_cdn_url in *. rewrite Hf, Hr.
  set (parts := str_split sep (path_join (folder st) key)) in *.
  unfold bind at 1 in Hrun.
  destruct (get_cdn_url_folders _ _ _ st) as [[ids|e] st0] eqn:Hfold; [|done].
  unfold bind at 1 in Hrun.
  destruct (_get_id_from_parent_and_name _ _ _ _ _ _ _ st0) as [[[id|]|e] st0'] eqn:Hg;
    [|by apply get_id_raising_not_none in Hg|done].
  injection Hrun as <- <-.
  destruct (get_id_log _ _ _ _ _ _ _ _ _ _ Hg) as (_ & _ & _ & Hsub & Hid).
  destruct (Hid id eq_refl eq_refl) as [Hkey Hsome].
  destruct (get_cdn_url_folders_replay _ _ _ _ _ _ Hfold st0' Hsub Hsome) as [H1 H2].
  split; [|by exists ids, id].
  erewrite bind_ok by exact H1. erewrite bind_ok; [reflexivity|].
  rewrite (get_id_cache_hit _ _ _ _ _ _ _ id Hkey).
  destruct Hsome as [c Hc]. by erewrite set_cache_id.
Qed.

(** X3: after [get_cdn_url] has returned a URL for a key, the same
    storage object answers [get_cdn_url] and [exists] for that key from
    its cache alone: the same URL and [True], no remote call, nothing
    changed on the object. *)
Theorem repeated_lookup_from_cache (st : St) key url st1 :
  GD.get_cdn_url key st = (Ok url, st1) ->
  GD.get_cdn_url key st1 = (Ok url, st1)
  /\ GD.exists_ key st1 = (Ok true, st1).
Proof.
  intros Hrun. destruct (get_cdn_url_replay _ _ _ _ Hrun) as [H1 _].
  split; [done|]. by rewrite exists_run, H1.
Qed.

(** X4: an [upload] of a key that [get_cdn_url] has just resolved makes
    no call for the folders, which come from the cache, and does not look
    for the file: it opens the local file and, when that succeeds, makes
    one remote call, the creation of one more file of that name under the
    parent under which the cache holds the id of the URL.  When the local
    file cannot be opened, [upload] raises and the remote is not called. *)
Theorem upload_after_lookup_only_creates (st : St) key url st1 file r rem :
  GD.get_cdn_url key st = (Ok url, st1) ->
  media_file_upload file (service st1) = (r, rem) ->
  let filename := py_last (str_split sep (path_join (folder st1) key)) in
  exists parent id,
    cache_of st1 !! cache_key parent filename false = Some id
    /\ url = view_url (Some id)
    /\ match r with
       | Ok _ =>
           exists res,
             calls (snd (GD.upload file key st1))
             = calls st1
               ++ [EMedia file r;
                   ECreate (Metadata [filename] None [parent]) (Some file) res]
       | Raise e =>
           GD.upload file key st1 = (Raise e, set_remote rem (EMedia file r) st1)
       end.
Proof.
  intros Hrun Hm filename.
  destruct (get_cdn_url_replay _ _ _ _ Hrun) as [_ (ids & id & Hfold & Hkey & Hurl)].
  exists (snd ids), id. split; [exact Hkey|]. split; [exact Hurl|].
  unfold GD.upload, uploadf. erewrite bind_ok by exact Hfold. cbv beta zeta.
  destruct r as [[]|e].
  - erewrite bind_ok by (apply call_media_run; exact Hm).
    unfold bind, call_create. cbn [service set_remote].
    destruct (files_create _ _ _) as [[[id'|]|e] rem2]; eexists; cbn;
      by rewrite <- app_assoc.
  - by erewrite bind_raise by (apply call_media_run; exact Hm).
Qed.

(** X5: the probe of the write path ([raise_on_missing=False]) reports a
    folder that no attempt lists by returning [None], never by raising:
    exactly [retries] listings, the sleeps between them, and a cache left
    as it was. *)
Theorem write_path_probe_returns_none (Inv : R -> Prop) parent_id name retries secs
    mime (st : St) :
  1 <= retries ->
  cache_of st !! cache_key parent_id name mime = None ->
  always_missing Inv (query_string parent_id name mime) secs ->
  Inv (service st) ->
  exists st',
    _get_id_from_parent_and_name parent_id name retries secs mime false true st
      = (Ok None, st')
    /\ calls st' = calls st
         ++ miss_log (query_string parent_id name mime) secs (Z.to_nat retries)
    /\ cache_of st' = cache_of st.
Proof.
  intros Hr Hmiss Ham Hinv.
  destruct (attempts_missing Inv (query_string parent_id name mime) secs
              (cache_key parent_id name mime) retries true Ham (Z.to_nat retries) 0%nat
              (set_cache (cache_of st) st) Hinv)
    as (st' & Hrun & Hc & Hcache & _); [lia|].
  exists st'. unfold _get_id_from_parent_and_name, range.
  erewrite bind_ok by reflexivity. rewrite Hmiss.
  erewrite bind_ok by exact Hrun. split; [done|]. split; [done|].
  unfold cache_of. by rewrite Hcache.
Qed.

Lemma get_id_default_miss_log parent_id name secs mime raise_on_missing (st : St) r st' :
  cache_of st !! cache_key parent_id name mime = None ->
  _get_id_from_parent_and_name parent_id name default_retries secs mime
    raise_on_missing true st = (r, st') ->
  exists res, calls st' = calls st ++ [EList (query_string parent_id name mime) res].
Proof.
  unfold _get_id_from_parent_and_name. intros Hmiss Hrun.
  erewrite bind_ok in Hrun by reflexivity. rewrite Hmiss in Hrun.
  change (range default_retries) with [0] in Hrun. cbn [attempts] in Hrun.
  unfold bind at 1 2 in Hrun. unfold call_list in Hrun. cbn [service set_cache] in Hrun.
  destruct (files_list _ _) as [[items|e] rem].
  - destruct (0 <? Z.of_nat (length items)).
    + destruct (last items) as [it|]; unfold bind, ret in Hrun; cbn in Hrun;
        injection Hrun as <- <-; by eexists.
    + change (0 <? default_retries - 1) with false in Hrun.
      unfold bind, ret in Hrun. cbn in Hrun.
      destruct raise_on_missing; injection Hrun as <- <-; by eexists.
  - cbn in Hrun. injection Hrun as <- <-. by eexists.
Qed.

Lemma str_split_no_sep s : contains "/" s = false -> str_split sep s = [s].
Proof.
  unfold sep. induction s as [|a s IH]; [done|].
  cbn [contains startswith str_split].
  rewrite (Ascii.eqb_sym a "/"%char).
  destruct (Ascii.eqb "/" a); [done|]. cbn [orb]. intros Hs. by rewrite IH.
Qed.

Lemma path_join_empty key : contains "/" key = false -> path_join "" key = key.
Proof.
  unfold path_join. destruct key as [|a s]; [done|].
  cbn [contains startswith]. destruct (Ascii.eqb "/" a); done.
Qed.

(** X6: a key stored outside any folder is not looked for under the root
    folder.  With an empty [folder] and a key without [/], [get_cdn_url]
    lists the children of the parent [None], and [upload] opens the local
    file and creates the file with the parent [None], or raises without a
    call on the remote when the local file cannot be opened;
    [root_folder_id] is not used. *)
Theorem lookup_without_folder (st : St) key file r rem :
  folder st = "" ->
  contains "/" key = false ->
  cache_of st !! cache_key None key false = None ->
  media_file_upload file (service st) = (r, rem) ->
  (exists res,
     calls (snd (GD.get_cdn_url key st))
     = calls st ++ [EList (query_string None key false) res])
  /\ match r with
     | Ok _ =>
         exists res,
           calls (snd (GD.upload file key st))
           = calls st ++ [EMedia file r;
                          ECreate (Metadata [key] None [None]) (Some file) res]
     | Raise e => GD.upload file key st = (Raise e, set_remote rem (EMedia file r) st)
     end.
Proof.
  intros Hf Hkey Hmiss Hm. split.
  - unfold GD.get_cdn_url. rewrite Hf, path_join_empty, str_split_no_sep by done.
    cbn [py_init removelast py_last List.last get_cdn_url_folders].
    erewrite bind_ok by reflexivity. cbn [snd]. unfold bind at 1.
    destruct (_get_id_from_parent_and_name _ _ _ _ _ _ _ st) as [[id|e] st'] eqn:Hg;
      by apply get_id_default_miss_log in Hg.
  - unfold GD.upload, uploadf. rewrite Hf, path_join_empty, str_split_no_sep by done.
    cbn [py_init removelast py_last List.last uploadf_folders].
    erewrite bind_ok by reflexivity. cbn [snd].
    destruct r as [[]|e].
    + erewrite bind_ok by (apply call_media_run; exact Hm).
      unfold bind, call_create. cbn [service set_remote].
      destruct (files_create _ _ _) as [[[id'|]|e] rem2]; eexists; cbn;
        by rewrite <- app_assoc.
    + by erewrite bind_raise by (apply call_media_run; exact Hm).
Qed.

Lemma append_assoc (s1 s2 s3 : string) : s1 +:+ s2 +:+ s3 = (s1 +:+ s2) +:+ s3.
Proof.
  induction s1 as [|a s1 IH]; [reflexivity|].
  change (String a (s1 +:+ s2 +:+ s3) = String a ((s1 +:+ s2) +:+ s3)). by rewrite IH.
Qed.

(** X15: the cache key does not keep the parent id and the name apart.
    Once [b] has been resolved under a parent [p_a], a resolution of
    [a_b] under the parent [p] is answered from the cache with the id of
    the other folder, without any remote call. *)
Theorem cache_key_joins_parent_and_name (st : St) p a b retries secs mime
    raise_on_missing id st1 :
  _get_id_from_parent_and_name (Some (p +:+ "_" +:+ a)) b retries secs mime
    raise_on_missing true st = (Ok (Some id), st1) ->
  forall retries2 secs2 raise2,
    _get_id_from_parent_and_name (Some p) (a +:+ "_" +:+ b) retries2 secs2 mime
      raise2 true st1 = (Ok (Some id), st1).
Proof.
  intros Hrun retries2 secs2 raise2.
  destruct (get_id_log _ _ _ _ _ _ _ _ _ _ Hrun) as (_ & _ & _ & _ & Hid).
  destruct (Hid id eq_refl eq_refl) as [Hkey [c Hc]].
  assert (Heq : cache_key (Some p) (a +:+ "_" +:+ b) mime
                = cache_key (Some (p +:+ "_" +:+ a)) b mime).
  { unfold cache_key. cbn [str_opt]. by rewrite <- !append_assoc. }
  rewrite (get_id_cache_hit _ _ _ _ _ _ _ id).
  - by erewrite set_cache_id.
  - by rewrite Heq.
Qed.

(** X17: a URL that [get_cdn_url] returns is the viewer URL of an id the
    remote listed, never of [None], and that id is in the cache when
    [get_cdn_url] returns. *)
Theorem get_cdn_url_returns_cached_id (st : St) key url st' :
  GD.get_cdn_url key st = (Ok url, st') ->
  exists id k, url = view_url (Some id) /\ cache_of st' !! k = Some id.
Proof.
  unfold GD.get_cdn_url. intros Hrun. unfold bind at 1 in Hrun.
  destruct (get_cdn_url_folders _ _ _ st) as [[ids|e] st0]; [|done].
  unfold bind at 1 in Hrun.
  destruct (_get_id_from_parent_and_name _ _ _ _ _ _ _ st0) as [[[id|]|e] st1] eqn:Hg;
    [|by apply get_id_raising_not_none in Hg|done].
  injection Hrun as <- <-.
  destruct (get_id_log _ _ _ _ _ _ _ _ _ _ Hg) as (_ & _ & _ & _ & Hid).
  destruct (Hid id eq_refl eq_refl) as [Hkey _]. by eexists _, _.
Qed.

End StorageMore.

(** ** More about the archivers: what a returned status stands for *)

Section ArchiverMore.
Import Arch.
Context {W : Type} `{World W}.

Local Abbreviation St := (AState W).

Lemma tiktok_try_inv url check_if_exists (st : St) r st' :
  tiktok_try url check_if_exists st = (r, st') ->
  exists new, trace st' = trace st ++ new
    /\ match r with
       | Ok (Result res) => tiktok_contract check_if_exists res new
       | Ok NotApplicable => False
       | Raise _ => True
       end.
Proof.
  intros Hrun.
  unfold tiktok_try, bind, exists_, upload, get_cdn_url, remove,
    tiktok_thumbnails, try_except, ret, raise in Hrun.
  run_all Hrun; collect_trace;
    (eexists; split; [first [reflexivity | symmetry; apply app_nil_r]|]); try exact I;
    unfold tiktok_contract; cbn [status cdn_url];
    (split_and!; intros Hs; try discriminate Hs);
    try (split; [done|]);
    repeat match goal with u : unit |- _ => destruct u end;
    eauto 10.
Qed.

(** X7: what a status of [TiktokArchiver.download] stands for, on any
    world.  "success" is only returned after the video was fetched,
    uploaded, removed from the scratch folder (or found gone) and its URL
    read from the storage, in that order; "already archived" only after
    the storage said the key exists, and then without any upload; the two
    "Could not download media" results come with no fetch, no upload and
    no removal. *)
Theorem tiktok_status_contract url check_if_exists (st : St) res st' :
  tiktok_download url check_if_exists st = (Ok (Result res), st') ->
  exists new, trace st' = trace st ++ new
    /\ tiktok_contract check_if_exists res new.
Proof.
  unfold tiktok_download. destruct (negb (contains "tiktok.com" url)); [done|].
  unfold try_except.
  destruct (tiktok_try url check_if_exists st) as [[[|r]|e] st1] eqn:Htry;
    apply tiktok_try_inv in Htry; destruct Htry as (new & Ht & Hc).
  - done.
  - intros [= <- <-]. by exists new.
  - intros Hrun. exists new. split.
    + by destruct e; injection Hrun as <- <-.
    + unfold tiktok_contract.
      destruct e; injection Hrun as <- <-; cbn [status status_only String.append];
        split_and!; intros Hs; discriminate Hs.
Qed.

(** X8: [TiktokArchiver.download] never raises, and it answers "not
    applicable" exactly for the URLs without [tiktok.com], before any
    collaborator is called: once the domain matches, every failure is a
    terminal result. *)
Theorem tiktok_handles_every_tiktok_url url check_if_exists (st : St) :
  exists r st',
    tiktok_download url check_if_exists st = (Ok r, st')
    /\ (r = NotApplicable <-> contains "tiktok.com" url = false)
    /\ (r = NotApplicable -> st' = st).
Proof.
  unfold tiktok_download. destruct (contains "tiktok.com" url); cbn [negb].
  - unfold try_except.
    destruct (tiktok_try url check_if_exists st) as [[[|r]|e] st1] eqn:Htry.
    + apply tiktok_try_inv in Htry. by destruct Htry as (new & _ & []).
    + eexists _, _. split; [reflexivity|]. by split.
    + destruct e; (eexists _, _; split; [reflexivity|]; by split).
  - eexists _, _. split; [reflexivity|]. by split.
Qed.

(** X9: what a status of [YoutubeDLArchiver.download] stands for, on any
    world.  "Streaming media" is returned after the first extraction
    alone; "success" after an upload, a reading of the URL and a removal
    of the scratch file that returned; "already archived" after the
    storage said the key exists, without an upload, and after the removal
    too. *)
Theorem youtubedl_status_contract fb_cookie url check_if_exists (st : St) res st' :
  youtubedl_download fb_cookie url check_if_exists st = (Ok (Result res), st') ->
  exists new, trace st' = trace st ++ new
    /\ youtubedl_contract url check_if_exists res new.
Proof.
  intros Hrun.
  unfold youtubedl_download, youtubedl_probe, youtubedl_archive, youtubedl_check,
    youtubedl_finish, youtubedl_timestamp, extract, bind, exists_, upload,
    get_cdn_url, remove, try_except, ret, raise in Hrun.
  run_all Hrun;
    try match goal with
      | E : default false (yi_is_live ?i) = true |- _ =>
          assert (yi_is_live i = Some true)
            by (destruct (yi_is_live i) as [[]|]; done);
          clear E
      end;
    collect_trace;
    (eexists; split; [first [reflexivity | symmetry; apply app_nil_r]|]);
    unfold youtubedl_contract; cbn [status cdn_url status_only];
    (split_and!; intros Hs; try discriminate Hs);
    try (split; [done|]);
    repeat match goal with u : unit |- _ => destruct u end;
    eauto 12.
Qed.

(** X16: a failure of the thumbnailer does not fail a TikTok attempt.
    When [get_thumbnails] raises an [Exception] and the rest of the
    pipeline answers, the result has the empty thumbnail key and the
    diagnostic index, and the status, the URL and the hash it would have
    had. *)
Theorem tiktok_thumbnail_failure_is_recorded Inv url check_if_exists found info key e
    h s r_remove u (st : St) :
  tiktok_pipeline Inv url check_if_exists found info key (Raise e) h s r_remove u ->
  Inv (world st) ->
  exists res st',
    tiktok_download url check_if_exists st = (Ok (Result res), st')
    /\ thumbnail res = Some ""
    /\ thumbnail_index res = Some "error creating thumbnails"
    /\ status res = (if check_if_exists && found then "already archived" else "success")
    /\ cdn_url res = Some u
    /\ hash res = Some h.
Proof.
  intros Hp Hinv.
  destruct (tiktok_pipeline_run _ _ _ _ _ _ _ _ _ _ _ st Hp Hinv) as (st' & Hrun & _).
  eexists _, st'. split; [exact Hrun|].
  unfold tiktok_result, tiktok_thumbs_value. cbn [thumbnail thumbnail_index status cdn_url hash].
  by destruct (ti_duration info).
Qed.

(** X18: when [YoutubeDLArchiver.download] answers "not applicable", it
    has uploaded nothing and removed nothing, on any world: a download it
    had already made stays in the scratch folder. *)
Theorem youtubedl_not_applicable_leaves_no_upload fb_cookie url check_if_exists
    (st : St) st' :
  youtubedl_download fb_cookie url check_if_exists st = (Ok NotApplicable, st') ->
  exists new, trace st' = trace st ++ new /\ Forall no_upload_no_cleanup new.
Proof.
  intros Hrun.
  unfold youtubedl_download, youtubedl_probe, youtubedl_archive, youtubedl_check,
    youtubedl_finish, youtubedl_timestamp, extract, bind, exists_, upload,
    get_cdn_url, remove, try_except, ret, raise in Hrun.
  run_all Hrun; collect_trace;
    (eexists; split; [first [reflexivity | symmetry; apply app_nil_r]|]);
    by repeat constructor.
Qed.

End ArchiverMore.

(** ** Facts about [Config]: the storages and the web driver *)

Section ConfigFacts.
Import Cfg.
Context {W D R X C : Type} `{Outside W D R X C}.
Variable getattr_or : forall A : Type, option A -> A -> A.

Local Abbreviation St := (CState W D R X).

Lemma cbind_done {S A B} (m : CM S A) (k : A -> CM S B) s a s' :
  m s = (Done a, s') -> cbind m k s = k a s'.
Proof. unfold cbind. by intros ->. Qed.

Lemma cbind_fail {S A B} (m : CM S A) (k : A -> CM S B) s e s' :
  m s = (Fail e, s') -> cbind m k s = (Fail e, s').
Proof. unfold cbind. by intros ->. Qed.

Lemma call_run {A} (ev : cout A -> cevent D) (f : W -> cout A * W) (st : St) r w :
  f (outside st) = (r, w) ->
  call ev f st = (r, mkC (config st) w (clog st ++ [ev r])).
Proof. unfold call. by intros ->. Qed.

(** X10: [destroy_webdriver] closes and quits a started driver and then
    deletes the attribute.  What follows on the same object reads a
    missing attribute: a second [destroy_webdriver] raises
    [AttributeError] without any call, and [recreate_webdriver] raises it
    after it has started a new browser, which it neither installs nor
    quits. *)
Theorem destroy_webdriver_deletes_attribute (st : St) d w1 w2 :
  webdriver (config st) = Some (WDriver d) ->
  drv_close d (outside st) = (Done tt, w1) ->
  drv_quit d w1 = (Done tt, w2) ->
  let st1 := mkC (set_webdriver None (config st)) w2
               (clog st ++ [EvClose d (Done tt); EvQuit d (Done tt)]) in
  destroy_webdriver st = (Done tt, st1)
  /\ destroy_webdriver st1 = (Fail (Other (AttributeError "webdriver")), st1)
  /\ (forall new w3,
        firefox w2 = (Done new, w3) ->
        recreate_webdriver st1
        = (Fail (Other (AttributeError "webdriver")),
           mkC (set_webdriver None (config st)) w3
             (clog st1 ++ [EvFirefox (Done new)]))).
Proof.
  intros Hw Hc Hq st1. split; [|split].
  - unfold destroy_webdriver. rewrite Hw. cbn [attr].
    erewrite cbind_done by reflexivity. cbv beta iota.
    erewrite cbind_done by (apply call_run; exact Hc).
    erewrite cbind_done by (apply call_run; exact Hq).
    unfold update, st1. cbn. by rewrite <- app_assoc.
  - reflexivity.
  - intros new w3 Hf. unfold recreate_webdriver, try_timeout.
    erewrite cbind_done by (apply call_run; exact Hf).
    reflexivity.
Qed.

(** X11: when starting the new browser times out, [recreate_webdriver]
    returns normally and the [Config] is as it was: the previous driver is
    neither closed nor replaced.  Any other exception of the start leaves
    [recreate_webdriver] as it was raised, the [Config] untouched too. *)
Theorem recreate_webdriver_keeps_driver_on_failure (st : St) e w1 :
  firefox (outside st) = (Fail e, w1) ->
  recreate_webdriver st
  = ((match e with TimeoutException => Done tt | _ => Fail e end),
     mkC (config st) w1 (clog st ++ [EvFirefox (Fail e)])).
Proof.
  intros Hf. unfold recreate_webdriver, try_timeout.
  erewrite cbind_fail by (apply call_run; exact Hf).
  by destruct e.
Qed.

(** X12: a successful [recreate_webdriver] starts the new browser first,
    then closes and quits the previous driver if there is one, installs
    the new one and sets its window size and page-load timeout from
    [selenium_config], in that order. *)
Theorem recreate_webdriver_replaces_driver (st : St) old new w1 w2 w3 w4 :
  webdriver (config st) = Some old ->
  firefox (outside st) = (Done new, w1) ->
  match old with
  | WDriver d => exists w', drv_close d w1 = (Done tt, w') /\ drv_quit d w' = (Done tt, w2)
  | _ => w2 = w1
  end ->
  let sc := selenium_config (config st) in
  drv_set_window_size new (window_width sc) (window_height sc) w2 = (Done tt, w3) ->
  drv_set_page_load_timeout new (timeout_seconds sc) w3 = (Done tt, w4) ->
  recreate_webdriver st
  = (Done tt,
     mkC (set_webdriver (Some (WDriver new)) (config st)) w4
       (clog st ++ [EvFirefox (Done new)]
        ++ match old with
           | WDriver d => [EvClose d (Done tt); EvQuit d (Done tt)]
           | _ => []
           end
        ++ [EvWindowSize new (window_width sc) (window_height sc) (Done tt);
            EvPageLoadTimeout new (timeout_seconds sc) (Done tt)])).
Proof.
  intros Hw Hf Hold sc Hs Ht. unfold recreate_webdriver, try_timeout.
  erewrite cbind_done by (apply call_run; exact Hf).
  assert (Hd : destroy_webdriver (mkC (config st) w1 (clog st ++ [EvFirefox (Done new)]))
    = (Done tt,
       mkC (match old with
            | WDriver _ => set_webdriver None (config st)
            | _ => config st
            end) w2
         (clog st ++ [EvFirefox (Done new)]
          ++ match old with
             | WDriver d => [EvClose d (Done tt); EvQuit d (Done tt)]
             | _ => []
             end))).
  { unfold destroy_webdriver. cbn [config]. rewrite Hw. cbn [attr].
    erewrite cbind_done by reflexivity. cbv beta iota.
    destruct old as [s| |d].
    - subst w2. cbn. by rewrite ?app_nil_r.
    - subst w2. cbn. by rewrite ?app_nil_r.
    - destruct Hold as (w' & Hc & Hq).
      erewrite cbind_done by (apply call_run; exact Hc).
      erewrite cbind_done by (apply call_run; exact Hq).
      unfold update. cbn. by rewrite <- !app_assoc. }
  erewrite cbind_done by exact Hd.
  erewrite cbind_done by reflexivity. cbv beta iota.
  assert (Hsc : selenium_config
            (set_webdriver (Some (WDriver new))
               (match old with
                | WDriver _ => set_webdriver None (config st)
                | _ => config st
                end)) = sc) by (by destruct old).
  cbn [config]. rewrite Hsc.
  erewrite cbind_done by (apply call_run; exact Hs).
  erewrite call_run by exact Ht.
  cbn [config outside clog]. f_equal. f_equal.
  - by destruct old.
  - by rewrite <- !app_assoc.
Qed.

(** X13: [get_storage] with a storage name that is none of "s3", "gd" and
    "local" raises a [TypeError] (its last line raises a string), and
    nothing is constructed.  With "gd", the [GDStorage] constructor runs
    on every call before [getattr_or] is asked, so a failure to load the
    credentials leaves [get_storage] as an exception even when a storage
    is already there. *)
Theorem get_storage_errors (st : St) :
  (String.eqb (storage (config st)) "s3" = false ->
   String.eqb (storage (config st)) "gd" = false ->
   String.eqb (storage (config st)) "local" = false ->
   exists msg, get_storage getattr_or st = (Fail (TypeError msg), st))
  /\ (forall gc e w1,
        storage (config st) = "gd" ->
        gd_config (config st) = Some gc ->
        from_service_account_file (gc_service_account gc) (outside st) = (Fail e, w1) ->
        get_storage getattr_or st
        = (Fail e, mkC (config st) w1
                     (clog st ++ [EvCredentials (gc_service_account gc)]))).
Proof.
  split.
  - intros H1 H2 H3. unfold get_storage. rewrite H1, H2, H3. by eexists.
  - intros gc e w1 Hs Hg Hf. unfold get_storage. rewrite Hs, Hg.
    cbn [String.eqb Ascii.eqb Bool.eqb attr].
    erewrite cbind_done by reflexivity. cbv beta iota.
    erewrite cbind_fail; [reflexivity|].
    unfold GDStorage_init. erewrite cbind_fail; [reflexivity|].
    by erewrite call_run by exact Hf.
Qed.

(** [getattr_or] returns the attribute when it is set and the default
    otherwise ("creating if needed", as [get_storage] documents). *)
Hypothesis getattr_or_set : forall A (a d : A), getattr_or A (Some a) d = a.
Hypothesis getattr_or_unset : forall A (d : A), getattr_or A None d = d.

(** X14: after [set_folder], the Drive storage that [get_storage] returns
    has the new folder, whether it existed before, in which case it is the
    same object with its cache, or is created by this call from the
    updated configuration. *)
Theorem set_folder_reaches_storage (st : St) f gc creds svc w1 w2 :
  storage (config st) = "gd" ->
  gd_config (config st) = Some gc ->
  from_service_account_file (gc_service_account gc) (outside st) = (Done creds, w1) ->
  build_drive creds w1 = (Done svc, w2) ->
  let s := match gd_storage (config st) with
           | Some s0 => gd_storage_with_folder f s0
           | None => GD.mkGD f (gc_root_folder_id gc) None svc []
           end in
  get_storage getattr_or (mkC (set_folder f (config st)) (outside st) (clog st))
  = (Done (IsGD s),
     mkC (set_gd_storage s (set_folder f (config st))) w2
       (clog st ++ [EvCredentials (gc_service_account gc); EvBuild]))
  /\ GD.folder s = f.
Proof.
  intros Hs Hg Hc Hb s. split; [|by unfold s; destruct (gd_storage (config st))].
  unfold get_storage. cbn [config set_folder storage gd_config]. rewrite Hs, Hg.
  cbn [String.eqb Ascii.eqb Bool.eqb attr fmap option_fmap option_map].
  erewrite cbind_done by reflexivity. cbv beta iota.
  erewrite cbind_done; cycle 1.
  { unfold GDStorage_init. cbn [gd_config_with_folder gc_service_account].
    erewrite cbind_done by (apply call_run; exact Hc).
    erewrite cbind_done by (apply call_run; exact Hb). reflexivity. }
  erewrite cbind_done by reflexivity. cbv beta iota.
  cbn [config gd_storage set_folder gd_config_with_folder gc_folder gc_root_folder_id].
  assert (Hsel : getattr_or (GD.GDStorage R)
            (gd_storage_with_folder f <$> gd_storage (config st))
            (GD.mkGD f (gc_root_folder_id gc) None svc []) = s).
  { unfold s. destruct (gd_storage (config st)); cbn.
    - apply getattr_or_set.
    - apply getattr_or_unset. }
  rewrite Hsel. unfold update, cbind, cret. cbn. by rewrite <- app_assoc.
Qed.

End ConfigFacts.

(** ** The further statements at concrete inputs *)

Section MoreRuns.
Import GD MemDrive Site Arch Script.

Lemma repeated_lookup_from_cache_witness :
  let st1 := snd (GD.get_cdn_url "a/f.mp4" uploaded) in
  GD.get_cdn_url "a/f.mp4" st1
    = (Ok "https://drive.google.com/file/d/id2/view?usp=sharing", st1)
  /\ GD.exists_ "a/f.mp4" st1 = (Ok true, st1).
Proof.
  intros st1.
  apply (repeated_lookup_from_cache uploaded "a/f.mp4").
  vm_compute. reflexivity.
Defined.

Lemma upload_after_lookup_only_creates_witness :
  let st1 := snd (GD.get_cdn_url "a/f.mp4" uploaded) in
  exists parent id,
    cache_of st1 !! cache_key parent "f.mp4" false = Some id
    /\ "https://drive.google.com/file/d/id2/view?usp=sharing" = view_url (Some id)
    /\ exists res,
         calls (snd (GD.upload "tmp/g.mp4" "a/f.mp4" st1))
         = calls st1
           ++ [EMedia "tmp/g.mp4" (Ok tt);
               ECreate (Metadata ["f.mp4"] None [parent]) (Some "tmp/g.mp4") res].
Proof.
  intros st1.
  apply (upload_after_lookup_only_creates uploaded "a/f.mp4"
           "https://drive.google.com/file/d/id2/view?usp=sharing" st1 "tmp/g.mp4"
           (Ok tt) (service st1)).
  - vm_compute. reflexivity.
  - reflexivity.
Defined.

Lemma write_path_probe_returns_none_witness :
  exists st',
    _get_id_from_parent_and_name (Some "root") "a" 2 10 true false true
      (fresh "root" "default" empty_drive) = (Ok None, st')
    /\ calls st' = calls (fresh "root" "default" empty_drive)
         ++ miss_log (query_string (Some "root") "a" true) 10 (Z.to_nat 2)
    /\ cache_of st' = cache_of (fresh "root" "default" empty_drive).
Proof.
  apply (write_path_probe_returns_none (fun d => d = empty_drive)).
  - lia.
  - reflexivity.
  - apply empty_always_missing. lia.
  - reflexivity.
Defined.

(** On a site whose local disk holds [tmp/f.mp4] and not [tmp/g.mp4]. *)
Lemma lookup_without_folder_witness :
  let st := at_site 0 empty_drive "root" "" in
  ((exists res,
      calls (snd (GD.get_cdn_url "f.mp4" st))
      = calls st ++ [EList (query_string None "f.mp4" false) res])
   /\ exists res,
        calls (snd (GD.upload "tmp/f.mp4" "f.mp4" st))
        = calls st ++ [EMedia "tmp/f.mp4" (Ok tt);
                       ECreate (Metadata ["f.mp4"] None [None]) (Some "tmp/f.mp4") res])
  /\ GD.upload "tmp/g.mp4" "f.mp4" st
     = (Raise FileNotFoundError,
        set_remote (service st) (EMedia "tmp/g.mp4" (Raise FileNotFoundError)) st).
Proof.
  intros st. split.
  - apply (lookup_without_folder st "f.mp4" "tmp/f.mp4" (Ok tt) (service st)); reflexivity.
  - apply (lookup_without_folder st "f.mp4" "tmp/g.mp4" (Raise FileNotFoundError)
             (service st)); reflexivity.
Defined.

Lemma cache_key_joins_parent_and_name_witness :
  let st1 := snd (_get_id_from_parent_and_name (Some ("r" +:+ "_" +:+ "a")) "b" 1 10
                    true true true (fresh "root" "default" underscore_drive)) in
  _get_id_from_parent_and_name (Some "r") ("a" +:+ "_" +:+ "b") 1 10 true true true st1
  = (Ok (Some "id0"), st1).
Proof.
  intros st1.
  apply (cache_key_joins_parent_and_name (fresh "root" "default" underscore_drive)
           "r" "a" "b" 1 10 true true "id0" st1).
  vm_compute. reflexivity.
Defined.

Lemma tiktok_status_contract_witness :
  exists new,
    trace (snd (tiktok_download tiktok_url true (start all_fine)))
    = trace (start all_fine) ++ new
    /\ tiktok_contract true
         (tiktok_result "already archived" post (Ok ("thumb.jpg", "index.html")) "abc123"
            "https://shots/1.png" "https://cdn/arch_1") new.
Proof.
  apply (tiktok_status_contract tiktok_url true (start all_fine)).
  vm_compute. reflexivity.
Defined.

Lemma youtubedl_status_contract_witness :
  exists new,
    trace (snd (youtubedl_download None video_url false (start all_fine)))
    = trace (start all_fine) ++ new
    /\ youtubedl_contract video_url false
         (mkResult "success" (Some "https://cdn/arch_1") (Some "thumb.jpg")
            (Some "index.html") (Some 12) (Some "clip") (Some (Isoformat "0"))
            (Some "abc123") (Some "https://shots/1.png")) new.
Proof.
  apply (youtubedl_status_contract None video_url false (start all_fine)).
  vm_compute. reflexivity.
Defined.

Lemma thumbs_fail_tiktok :
  tiktok_pipeline (fun w => w = thumbs_fail (ValueError "ffmpeg") all_fine) tiktok_url
    false true post (script_key "7001.mp4") (Raise (ValueError "ffmpeg")) "abc123"
    "https://shots/1.png" (Ok tt) "https://cdn/arch_1".
Proof.
  apply (scripted_tiktok (thumbs_fail (ValueError "ffmpeg") all_fine) tiktok_url false
           true post "https://cdn/v.mp4" []); try reflexivity; try discriminate.
  - by intros e [= <-].
  - by left.
Qed.

Lemma tiktok_thumbnail_failure_is_recorded_witness :
  exists res st',
    tiktok_download tiktok_url false (start (thumbs_fail (ValueError "ffmpeg") all_fine))
      = (Ok (Result res), st')
    /\ thumbnail res = Some ""
    /\ thumbnail_index res = Some "error creating thumbnails"
    /\ status res = "success"
    /\ cdn_url res = Some "https://cdn/arch_1"
    /\ hash res = Some "abc123".
Proof.
  apply (tiktok_thumbnail_failure_is_recorded
           (fun w => w = thumbs_fail (ValueError "ffmpeg") all_fine) tiktok_url false true
           post (script_key "7001.mp4") (ValueError "ffmpeg") "abc123"
           "https://shots/1.png" (Ok tt) "https://cdn/arch_1"
           (start (thumbs_fail (ValueError "ffmpeg") all_fine)) thumbs_fail_tiktok eq_refl).
Defined.

Lemma get_cdn_url_returns_cached_id_witness :
  exists id k,
    "https://drive.google.com/file/d/id2/view?usp=sharing" = view_url (Some id)
    /\ cache_of (snd (GD.get_cdn_url "a/f.mp4" uploaded)) !! k = Some id.
Proof.
  apply (get_cdn_url_returns_cached_id uploaded "a/f.mp4").
  vm_compute. reflexivity.
Defined.

Lemma youtubedl_not_applicable_leaves_no_upload_witness :
  exists new,
    trace (snd (youtubedl_download None video_url true (start playlist_world)))
    = trace (start playlist_world) ++ new
    /\ Forall no_upload_no_cleanup new.
Proof.
  apply (youtubedl_not_applicable_leaves_no_upload None video_url true
           (start playlist_world)).
  vm_compute. reflexivity.
Defined.

End MoreRuns.

Section ConfigRuns.
Import Cfg CfgToy.

Lemma destroy_webdriver_deletes_attribute_witness :
  let st := cstart (drive_config "gd" (Some (WDriver 3%nat)) None) healthy in
  let st1 := mkC (set_webdriver None (config st)) healthy
               [EvClose 3%nat (Done tt); EvQuit 3%nat (Done tt)] in
  destroy_webdriver st = (Done tt, st1)
  /\ destroy_webdriver st1 = (Fail (Other (AttributeError "webdriver")), st1).
Proof.
  intros st st1.
  edestruct (destroy_webdriver_deletes_attribute st 3%nat healthy healthy)
    as (H1 & H2 & _); [reflexivity..|].
  split; [exact H1|exact H2].
Defined.

Lemma recreate_webdriver_keeps_driver_on_failure_witness :
  let st := cstart (drive_config "gd" (Some (WDriver 3%nat)) None)
              (firefox_fails TimeoutException) in
  recreate_webdriver st
  = (Done tt, mkC (config st) (firefox_fails TimeoutException)
                [EvFirefox (Fail TimeoutException)]).
Proof.
  intros st.
  apply (recreate_webdriver_keeps_driver_on_failure st TimeoutException
           (firefox_fails TimeoutException)).
  reflexivity.
Defined.

Lemma recreate_webdriver_replaces_driver_witness :
  let st := cstart (drive_config "gd" (Some (WDriver 3%nat)) None) healthy in
  recreate_webdriver st
  = (Done tt,
     mkC (set_webdriver (Some (WDriver 7%nat)) (config st)) healthy
       [EvFirefox (Done 7%nat); EvClose 3%nat (Done tt); EvQuit 3%nat (Done tt);
        EvWindowSize 7%nat 1400 2000 (Done tt); EvPageLoadTimeout 7%nat 120 (Done tt)]).
Proof.
  intros st.
  apply (recreate_webdriver_replaces_driver st (WDriver 3%nat) 7%nat healthy healthy
           healthy healthy).
  - reflexivity.
  - reflexivity.
  - exists healthy. by split.
  - reflexivity.
  - reflexivity.
Defined.

Lemma get_storage_errors_witness :
  (exists msg,
     get_storage getattr_or (cstart (drive_config "ftp" None None) healthy)
     = (Fail (TypeError msg), cstart (drive_config "ftp" None None) healthy))
  /\ get_storage getattr_or
       (cstart (drive_config "gd" None (Some MemDrive.uploaded)) no_credentials)
     = (Fail (Other FileNotFoundError),
        mkC (drive_config "gd" None (Some MemDrive.uploaded)) no_credentials
          [EvCredentials "service_account.json"]).
Proof.
  split.
  - apply (proj1 (get_storage_errors getattr_or
                    (cstart (drive_config "ftp" None None) healthy))); reflexivity.
  - apply (proj2 (get_storage_errors getattr_or
                    (cstart (drive_config "gd" None (Some MemDrive.uploaded))
                       no_credentials))
             (GDConfig_new "root" "service_account.json") (Other FileNotFoundError)
             no_credentials); reflexivity.
Defined.

Lemma set_folder_reaches_storage_witness :
  let st := cstart (drive_config "gd" None (Some MemDrive.uploaded)) healthy in
  let s := gd_storage_with_folder "SM0022" MemDrive.uploaded in
  get_storage getattr_or (mkC (set_folder "SM0022" (config st)) (outside st) (clog st))
  = (Done (IsGD s),
     mkC (set_gd_storage s (set_folder "SM0022" (config st))) healthy
       [EvCredentials "service_account.json"; EvBuild])
  /\ GD.folder s = "SM0022".
Proof.
  intros st s.
  apply (set_folder_reaches_storage getattr_or (fun _ _ _ => eq_refl) (fun _ _ => eq_refl)
           st "SM0022" (GDConfig_new "root" "service_account.json") "token"
           MemDrive.empty_drive healthy healthy); reflexivity.
Defined.

End ConfigRuns.
